(** * bberg.sftp: request building, reply parsing and polling

    A shallow embedding of [src/bberg/sftp.py].  Python values are modelled as
    follows: [str] as [string], [int] as [Z] (counters as [nat]), a calendar
    [datetime] as its proleptic Gregorian ordinal in [Z], the result mapping
    and the per-entity tables as [gmap]s, the request mapping (whose
    insertion order drives the submission order) as an association list.
    Exceptions, the module logger and the file server are explicit. *)

From Stdlib Require Import ZArith Ascii String List Lia.
From stdpp Require Import base decidable option numbers list strings gmap pretty.

Local Open Scope string_scope.
Local Open Scope list_scope.
Local Open Scope Z_scope.

(** ** Exceptions and effects *)

Inductive exn : Set :=
| AssertionError
| ValueError
| IndexError
| IOError.

Inductive level : Set := DEBUG | INFO | WARNING.

(** What a run does to the world outside: a record handed to
    [logging.getLogger("bberg.sftp")], a file written to the server, a
    [sleep]. *)
Inductive event : Set :=
| Logged (lv : level) (msg : string)
| Written (path : string) (content : string)
| Slept (seconds : Z).

Inductive outcome (A : Type) : Type :=
| Raise (e : exn)
| Return (a : A).
Arguments Raise {A} e.
Arguments Return {A} a.

(** A computation starts from the history of effects so far, extends it,
    and either raises or returns.  Effects that happened before an
    exception stay in the history. *)
Definition M (A : Type) : Type := list event -> list event * outcome A.

Definition ret {A} (a : A) : M A := fun h => (h, Return a).
Definition raise {A} (e : exn) : M A := fun h => (h, Raise e).
Definition effect (ev : event) : M unit := fun h => (h ++ [ev], Return tt).
Definition emit (lv : level) (msg : string) : M unit := effect (Logged lv msg).
Definition bind {A B} (m : M A) (k : A -> M B) : M B :=
  fun h =>
    match m h with
    | (h', Raise e) => (h', Raise e)
    | (h', Return a) => k a h'
    end.

Notation "'do' x <- m ; k" := (bind m (fun x => k))
  (at level 10, x pattern, m at level 100, k at level 200).
Notation "m ;; k" := (bind m (fun _ => k))
  (at level 100, k at level 200, right associativity).

(** [for x in xs: body], threading the local variables [s]. *)
Fixpoint for_each {A S} (body : S -> A -> M S) (xs : list A) (s : S) : M S :=
  match xs with
  | [] => ret s
  | x :: xs' => do s' <- body s x; for_each body xs' s'
  end.

(** ** Strings *)

Definition nl : string := String (ascii_of_nat 10) "".

(** Iterating over [StringIO(s)]: the lines of [s], each with its line feed. *)
Fixpoint readlines (s : string) : list string :=
  match s with
  | EmptyString => []
  | String c s' =>
      if Ascii.eqb c (ascii_of_nat 10) then String c "" :: readlines s'
      else match readlines s' with
           | [] => [String c ""]
           | l :: ls => String c l :: ls
           end
  end.

(** [s.split(sep, maxsplit)] for a one-character separator: at most
    [maxsplit] cuts from the left, the rest stays whole. *)
Fixpoint split (sep : ascii) (maxsplit : nat) (s : string) : list string :=
  match s with
  | EmptyString => [""]
  | String c s' =>
      match maxsplit, Ascii.eqb c sep with
      | S n, true => "" :: split sep n s'
      | _, _ => match split sep maxsplit s' with
                | [] => [String c ""]
                | w :: ws => String c w :: ws
                end
      end
  end.

(** [sep.join(xs)]. *)
Fixpoint join (sep : string) (xs : list string) : string :=
  match xs with
  | [] => ""
  | [x] => x
  | x :: xs' => x +:+ sep +:+ join sep xs'
  end.

(** [xs[i]], raising [IndexError] out of range. *)
Definition item {A} (xs : list A) (i : nat) : M A :=
  match xs !! i with
  | Some x => ret x
  | None => raise IndexError
  end.

(** ** Library functions the parser calls

    [py_float], [py_int] and [py_strptime] stand for the built-ins [float],
    [int] and [datetime.datetime.strptime(_, '%d/%m/%Y')]; [None] is their
    [ValueError].  [py_bool] is the truth value of a float, false exactly for
    zero.  A date is the ordinal of its day. *)
Class Builtins : Type := {
  pyfloat : Type;
  py_float : string -> option pyfloat;
  py_bool : pyfloat -> bool;
  py_int : string -> option Z;
  py_strptime : string -> option Z
}.

(** ** pandas tables *)

(** A [DataFrame]: row labels, column labels and the cells that hold a
    value; a cell without an entry is absent (NaN).  Columns that share a
    label share their cells, as an assignment by label fills them alike. *)
Record DataFrame (V : Type) : Type := mkFrame {
  index : list Z;
  columns : list string;
  cells : gmap (Z * string) V
}.
Arguments mkFrame {V} _ _ _.
Arguments index {V} _.
Arguments columns {V} _.
Arguments cells {V} _.

(** [pd.date_range(begin_date, end_date)]: every day from [begin_date] to
    [end_date], both included; empty when [end_date < begin_date]. *)
Definition date_range (begin_date end_date : Z) : list Z :=
  seqZ begin_date (end_date - begin_date + 1).

(** [pd.DataFrame(index=idx, columns=cols)]: no cell holds a value. *)
Definition new_frame {V} (idx : list Z) (cols : list string) : DataFrame V :=
  mkFrame idx cols ∅.

(** [df.loc[d, c] = v].  pandas sets with enlargement: a label missing
    from an axis is appended to that axis, and the assignment never raises.
    The entry records the value assigned last, a NaN included, although
    pandas cannot tell a cell that was assigned NaN from an absent one. *)
Definition loc_set {V} (d : Z) (c : string) (v : V) (df : DataFrame V) : DataFrame V :=
  mkFrame (if decide (d ∈ index df) then index df else index df ++ [d])
          (if decide (c ∈ columns df) then columns df else columns df ++ [c])
          (<[(d, c) := v]> (cells df)).

(** The value of a cell, [None] when absent. *)
Definition cell {V} (df : DataFrame V) (d : Z) (c : string) : option V :=
  cells df !! (d, c).

(** ** The reply parser *)

Section Parser.
Context `{B : Builtins}.

(** The local variables of [parse_hist_security_response].  [sec], [col]
    are unbound in Python until the first [START SECURITY]; they are only
    read while [in_sec] holds.  The local [dframe] always is the object
    stored at [dframes[sec]], so an assignment through it is an update of
    that entry. *)
Record locals : Type := mkLocals {
  in_sec : bool;
  sec : string;
  col : string;
  dframes : gmap string (DataFrame pyfloat)
}.

Definition initial : locals := mkLocals false "" "" ∅.

(** [try: val = float(tok) except ValueError: val = None; logger.debug(..)] *)
Definition try_float (tok : string) : M (option pyfloat) :=
  match py_float tok with
  | Some v => ret (Some v)
  | None =>
      emit DEBUG ("Could not convert val: " +:+ tok +:+ " to float");;
      ret None
  end.

(** One iteration of the loop body.  The [assert] is live, as it is
    unless the interpreter runs with [-O]; [IndexError] and the [ValueError]
    of [int] and [strptime] are not caught. *)
Definition parse_line (begin_date end_date : Z) (fields : list string)
    (st : locals) (line : string) : M locals :=
  let bits := split "|" 4 line in
  do b0 <- item bits 0;
  if in_sec st then
    if decide (b0 = "END SECURITY") then
      do b3 <- item bits 3;
      match py_int b3 with
      | None => raise ValueError
      | Some ret_code =>
          (if decide (ret_code ≠ 0) then
             emit WARNING ("Received return code: " +:+ pretty ret_code +:+
                           " for history request for security: " +:+ sec st)
           else ret tt);;
          ret (mkLocals false (sec st) (col st) (dframes st))
      end
    else
      if decide (b0 = sec st) then
        do b2 <- item bits 2;
        do val <- try_float b2;
        match val with
        | Some v =>
            if py_bool v then
              do b1 <- item bits 1;
              match py_strptime b1 with
              | None => raise ValueError
              | Some d =>
                  ret (mkLocals true (sec st) (col st)
                         (alter (loc_set d (col st) v) (sec st) (dframes st)))
              end
            else ret st
        | None => ret st
        end
      else raise AssertionError
  else if decide (b0 = "START SECURITY") then
    do b1 <- item bits 1;
    do b2 <- item bits 2;
    match dframes st !! b1 with
    | Some _ => ret (mkLocals true b1 b2 (dframes st))
    | None =>
        ret (mkLocals true b1 b2
               (<[b1 := new_frame (date_range begin_date end_date) fields]>
                  (dframes st)))
    end
  else ret st.

Definition parse_lines (begin_date end_date : Z) (fields : list string)
    (lines : list string) (st : locals) : M locals :=
  for_each (parse_line begin_date end_date fields) lines st.

Definition parse_hist_security_response (response : string)
    (begin_date end_date : Z) (fields : list string)
    : M (gmap string (DataFrame pyfloat)) :=
  do st <- parse_lines begin_date end_date fields (readlines response) initial;
  ret (dframes st).
End Parser.

(** ** A reference implementation of the library functions

    ASCII input only.  A finite float is kept as the numeral it was read
    from; whether it reads as zero or as an infinity is decided exactly
    against the smallest and the largest double. *)

Module CPython.

Definition digit_val (c : ascii) : option Z :=
  let n := Z.of_N (N_of_ascii c) in
  if (48 <=? n) && (n <=? 57) then Some (n - 48) else None.

Definition is_digit (c : ascii) : bool := bool_decide (is_Some (digit_val c)).

(** The characters [int] and [float] skip around an ASCII numeral: tab,
    line feed, vertical tab, form feed, carriage return and space. *)
Definition is_space (c : ascii) : bool :=
  let n := Z.of_N (N_of_ascii c) in
  ((9 <=? n) && (n <=? 13)) || (n =? 32).

Fixpoint lstrip (s : string) : string :=
  match s with
  | String c s' => if is_space c then lstrip s' else s
  | EmptyString => ""
  end.

Fixpoint rstrip (s : string) : string :=
  match s with
  | String c s' =>
      match rstrip s' with
      | EmptyString => if is_space c then "" else String c ""
      | r => String c r
      end
  | EmptyString => ""
  end.

Definition strip (s : string) : string := rstrip (lstrip s).

(** A maximal run of digits, single underscores allowed between two
    digits; returns the digits and what follows them. *)
Fixpoint digits (s : string) : list Z * string :=
  match s with
  | String c s' =>
      match digit_val c with
      | Some d =>
          let '(ds, r) :=
            match s' with
            | String "_" (String c2 _ as s'') =>
                if is_digit c2 then digits s'' else digits s'
            | _ => digits s'
            end in
          (d :: ds, r)
      | None => ([], s)
      end
  | EmptyString => ([], "")
  end.

Definition number (ds : list Z) : Z := fold_left (fun acc d => 10 * acc + d) ds 0.

Definition sign (s : string) : bool * string :=
  match s with
  | String "-" s' => (true, s')
  | String "+" s' => (false, s')
  | _ => (false, s)
  end.

(** [int(s)] in base ten.  A numeral of more than 4300 digits is
    rejected, the default limit of the interpreter since version 3.11. *)
Definition int (s : string) : option Z :=
  let '(neg, s1) := sign (strip s) in
  match digits s1 with
  | ((_ :: _) as ds, EmptyString) =>
      if (4300 <? length ds)%nat then None
      else Some (if neg then - number ds else number ds)
  | _ => None
  end.

(** A float: the decimal numeral [(-1)^neg * mant * 10^exp], an
    infinity, or not-a-number. *)
Inductive float_repr : Type :=
| Dec (neg : bool) (mant : Z) (exp : Z)
| Inf (neg : bool)
| NaN.

Definition lower (c : ascii) : ascii :=
  let n := N_of_ascii c in
  if ((65 <=? n) && (n <=? 90))%N then ascii_of_N (n + 32) else c.

Fixpoint lowercase (s : string) : string :=
  match s with
  | String c s' => String (lower c) (lowercase s')
  | EmptyString => ""
  end.

Definition exponent (s : string) : option Z :=
  match s with
  | EmptyString => Some 0
  | String c s' =>
      if decide (lower c = "e"%char) then
        let '(neg, s2) := sign s' in
        match digits s2 with
        | ((_ :: _) as ds, EmptyString) => Some (if neg then - number ds else number ds)
        | _ => None
        end
      else None
  end.

(** A numeral reads as an infinity when it is at least halfway between
    the largest double and [2^1024]. *)
Definition overflows (m e : Z) : bool :=
  let t := 2 ^ 1024 - 2 ^ 970 in
  if 0 <=? e then t <=? m * 10 ^ e else t * 10 ^ (- e) <=? m.

(** [float(s)]. *)
Definition float (s : string) : option float_repr :=
  let '(neg, s1) := sign (strip s) in
  let w := lowercase s1 in
  if decide (w = "inf" \/ w = "infinity") then Some (Inf neg)
  else if decide (w = "nan") then Some NaN
  else
    let '(ip, s2) := digits s1 in
    let '(fp, s3) :=
      match s2 with
      | String "." s2' => digits s2'
      | _ => ([], s2)
      end in
    match ip ++ fp with
    | [] => None
    | ds =>
        match exponent s3 with
        | Some e =>
            let e' := e - Z.of_nat (length fp) in
            Some (if overflows (number ds) e' then Inf neg
                  else Dec neg (number ds) e')
        | None => None
        end
    end.

(** [bool(x)]: a numeral is read as zero exactly when it is at most
    half the smallest positive double, [2^-1075]. *)
Definition bool_of_float (x : float_repr) : bool :=
  match x with
  | Dec _ m e =>
      if 0 <=? e then 0 <? m else 10 ^ (- e) <? m * 2 ^ 1075
  | Inf _ => true
  | NaN => true
  end.

Definition is_leap (y : Z) : bool :=
  (y mod 4 =? 0) && (negb (y mod 100 =? 0) || (y mod 400 =? 0)).

Definition days_in_month (y m : Z) : Z :=
  if m =? 2 then (if is_leap y then 29 else 28)
  else if (m =? 4) || (m =? 6) || (m =? 9) || (m =? 11) then 30
  else 31.

Definition days_before_year (y : Z) : Z :=
  (y - 1) * 365 + (y - 1) / 4 - (y - 1) / 100 + (y - 1) / 400.

Fixpoint days_before_month (y : Z) (m : nat) : Z :=
  match m with
  | O => 0
  | S m' => days_before_month y m' + days_in_month y (Z.of_nat m)
  end.

(** [datetime.date(y, m, d).toordinal()]. *)
Definition ordinal (y m d : Z) : Z :=
  days_before_year y + days_before_month y (Z.to_nat (m - 1)) + d.

(** The tokens [%d] and [%m] accept: one digit, two digits, or (day
    only) a space and a digit, with the value in [1, hi]. *)
Definition day_or_month (allow_space : bool) (hi : Z) (s : string) : option Z :=
  let check n := if (1 <=? n) && (n <=? hi) then Some n else None in
  match s with
  | String c EmptyString => n ← digit_val c; check n
  | String c1 (String c2 EmptyString) =>
      if allow_space && Ascii.eqb c1 " " then n ← digit_val c2; check n
      else a ← digit_val c1; b ← digit_val c2; check (10 * a + b)
  | _ => None
  end.

Definition year (s : string) : option Z :=
  match s with
  | String a (String b (String c (String d EmptyString))) =>
      a ← digit_val a; b ← digit_val b; c ← digit_val c; d ← digit_val d;
      Some (number [a; b; c; d])
  | _ => None
  end.

(** [datetime.datetime.strptime(s, '%d/%m/%Y')], as the ordinal of the day. *)
Definition strptime (s : string) : option Z :=
  match split "/" 2 s with
  | [ds; ms; ys] =>
      d ← day_or_month true 31 ds;
      m ← day_or_month false 12 ms;
      y ← year ys;
      if (1 <=? y) && (d <=? days_in_month y m) then Some (ordinal y m d) else None
  | _ => None
  end.

End CPython.

#[export] Instance cpython : Builtins := {|
  pyfloat := CPython.float_repr;
  py_float := CPython.float;
  py_bool := CPython.bool_of_float;
  py_int := CPython.int;
  py_strptime := CPython.strptime
|}.

(** ** The request builder *)

(** The attributes of an [Sftp] object. *)
Record Sftp : Type := mkSftp {
  _tstr : string;
  _request_id : nat;
  _host : string;
  _username : string;
  _password : string
}.

(** [Sftp.__init__]; [now] is [datetime.datetime.now()] printed with
    ['%Y%m%d%H%M%S']. *)
Definition init (now host username password : string) : Sftp :=
  mkSftp now 0 host username password.

Definition _opening_stanza : string := "START-OF-FILE" +:+ nl.
Definition _closing_stanza : string := nl +:+ "END-OF-FILE" +:+ nl.
Definition _start_of_fields : string := nl +:+ "START-OF-FIELDS" +:+ nl.
Definition _end_of_fields : string := nl +:+ "END-OF-FIELDS" +:+ nl.
Definition _start_of_data : string := "START-OF-DATA" +:+ nl.
Definition _end_of_data : string := nl +:+ "END-OF-DATA" +:+ nl.

(** The triple-quoted template of [_build_header], filled in. *)
Definition header_template (username rid : string) : string :=
  nl +:+ "            FIRMNAME=" +:+ username +:+
  nl +:+ "            REPLYFILENAME=" +:+ rid +:+ ".dat" +:+
  nl +:+ "            COMPRESS=yes" +:+
  nl +:+ "            PROGRAMFLAG=oneshot" +:+
  nl +:+ "        ".

Definition key_value (kv : string * string) : string := kv.1 +:+ "=" +:+ kv.2.

(** The methods update [self]; they return it next to their result. *)
Definition _build_header (self : Sftp) (headers : list (string * string))
    : Sftp * (string * string) :=
  let self' := mkSftp (_tstr self) (S (_request_id self))
                      (_host self) (_username self) (_password self) in
  let rid := "bbpy_" +:+ _tstr self' +:+ "_" +:+ pretty (_request_id self') in
  let header := header_template (_username self') rid in
  (self', (rid, header +:+ join nl (key_value <$> headers))).

Definition _build_fields (fields : list string) : string :=
  _start_of_fields +:+ join nl fields +:+ _end_of_fields.

Definition _build_data (data : list string) : string :=
  _start_of_data +:+ join nl data +:+ _end_of_data.

Definition build_request (self : Sftp) (headers : list (string * string))
    (fields data : list string) : Sftp * (string * string) :=
  let '(self', (rid, hdrs)) := _build_header self headers in
  (self', (rid, join "" [_opening_stanza; hdrs; _build_fields fields;
                         _build_data data; _closing_stanza])).

(** The arguments of one [build_request] call. *)
Definition build_args : Type := list (string * string) * list string * list string.

(** Consecutive [build_request] calls on one object; returns the object
    and the [(rid, request)] pairs in call order. *)
Fixpoint build_requests (self : Sftp) (calls : list build_args)
    : Sftp * list (string * string) :=
  match calls with
  | [] => (self, [])
  | (headers, fields, data) :: calls' =>
      let '(self1, r) := build_request self headers fields data in
      let '(self2, rs) := build_requests self1 calls' in
      (self2, r :: rs)
  end.

(** ** The polling engine *)

(** The open connection.  What the server answers changes while the
    engine sleeps: [sftp_exists n path] is the answer of
    [sftp.exists(path)] during the [n]-th polling pass, [sftp_fetch n path]
    the text [decompress(sftp.open(path).read()).decode("utf-8")] yields
    then, [None] when any of these steps raises.  Within a pass each
    identifier is asked about once, so this covers a server that changes
    its mind between two calls. *)
Record Transport : Type := mkTransport {
  sftp_exists : nat -> string -> bool;
  sftp_fetch : nat -> string -> option string
}.

(** [send_request] on a server that takes the file; an [open] or [write]
    that raises would end [request] within the submissions. *)
Definition send_request (rid request : string) : M unit :=
  effect (Written (rid +:+ ".req") request);;
  emit INFO ("Submitted request id: " +:+ rid +:+ " to Bloomberg sftp server").

(** Returns the flag and the updated [responses] dictionary.  [IOError]
    stands for whatever the failing step raises; nothing catches it. *)
Definition get_response (sftp : Transport) (pass : nat) (rid : string)
    (responses : gmap string string) : M (bool * gmap string string) :=
  let replyname := rid +:+ ".dat.gz" in
  if sftp_exists sftp pass replyname then
    match sftp_fetch sftp pass replyname with
    | Some text => ret (true, <[rid := text]> responses)
    | None => raise IOError
    end
  else ret (false, responses).

(** [[rid for rid in pending if not get_response(sftp, rid, responses)]] *)
Fixpoint poll (sftp : Transport) (pass : nat) (pending : list string)
    (responses : gmap string string) : M (list string * gmap string string) :=
  match pending with
  | [] => ret ([], responses)
  | rid :: rest =>
      do got <- get_response sftp pass rid responses;
      do kept <- poll sftp pass rest got.2;
      ret (if got.1 then kept.1 else rid :: kept.1, kept.2)
  end.

(** One turn of the [while] loop up to its assertion: the sleep, then
    the pass over [pending]. *)
Definition poll_cycle (sftp : Transport) (pass : nat) (pending : list string)
    (responses : gmap string string) : M (list string * gmap string string) :=
  effect (Slept 30);;
  poll sftp pass pending responses.

(** The [while] loop, cut off after [fuel] turns ([None]: still waiting).
    [pass] counts the passes made so far, [submitted] is [len(requests)]. *)
Fixpoint poll_loop (sftp : Transport) (fuel pass submitted : nat)
    (pending : list string) (responses : gmap string string)
    : M (option (gmap string string)) :=
  match pending with
  | [] => ret (Some responses)
  | _ :: _ =>
      match fuel with
      | O => ret None
      | S fuel' =>
          do now <- poll_cycle sftp (S pass) pending responses;
          if decide (length now.1 + size now.2 = submitted)%nat then
            poll_loop sftp fuel' (S pass) submitted now.1 now.2
          else raise AssertionError
      end
  end.

(** The submission loop: [send_request] and [pending.append] per item. *)
Definition submit (pending : list string) (item : string * string) : M (list string) :=
  send_request item.1 item.2;;
  ret (pending ++ [item.1]).

(** [Sftp.request] on an open connection.  [requests] lists the items of
    the dictionary in insertion order. *)
Definition request (sftp : Transport) (fuel : nat) (requests : list (string * string))
    : M (option (gmap string string)) :=
  do pending <- for_each submit requests [];
  poll_loop sftp fuel 0 (length requests) pending ∅.

(** The state after [n] polling cycles that follow [pass] earlier ones. *)
Fixpoint cycles (sftp : Transport) (n pass : nat) (pending : list string)
    (responses : gmap string string) : M (list string * gmap string string) :=
  match n with
  | O => ret (pending, responses)
  | S n' =>
      do now <- poll_cycle sftp (S pass) pending responses;
      cycles sftp n' (S pass) now.1 now.2
  end.

(** ** Vocabulary of the properties *)

(** What [parse_hist_security_response] still does once it has read up to
    some line with local variables [st]: the remaining lines, then the
    [return]. *)
Definition parse_rest `{B : Builtins} (begin_date end_date : Z)
    (fields : list string) (rest : list string) (st : locals)
    : M (gmap string (DataFrame pyfloat)) :=
  do st' <- parse_lines begin_date end_date fields rest st;
  ret (dframes st').

(** The warning of a block that ends with a non-zero return code. *)
Definition return_code_warning (ret_code : Z) (sec : string) : event :=
  Logged WARNING ("Received return code: " +:+ pretty ret_code +:+
                  " for history request for security: " +:+ sec).

(** A table covers the requested range and fields: its rows are the days
    of the range, in order, then days outside the range that hold a stored
    value; its columns are the requested fields, then other column names
    that hold a stored value. *)
Definition covers {V} (begin_date end_date : Z) (fields : list string)
    (df : DataFrame V) : Prop :=
  exists rows cols,
    index df = date_range begin_date end_date ++ rows /\
    columns df = fields ++ cols /\
    NoDup (index df) /\
    (forall d, d ∈ rows ->
       ~ (begin_date <= d <= end_date) /\ exists c, is_Some (cell df d c)) /\
    (forall c, c ∈ cols -> (c ∉ fields) /\ exists d, is_Some (cell df d c)).

(** Every table the parser holds covers the range and the fields. *)
Definition all_cover `{B : Builtins} (begin_date end_date : Z)
    (fields : list string) (st : locals) : Prop :=
  forall s df, dframes st !! s = Some df -> covers begin_date end_date fields df.

(** A string without a line feed. *)
Fixpoint one_line (s : string) : bool :=
  match s with
  | EmptyString => true
  | String c s' => negb (Ascii.eqb c (ascii_of_nat 10)) && one_line s'
  end.

(** The lines a joined block reads back as: its items, or one empty line
    when there is none. *)
Definition block_lines (indent : string) (xs : list string) : list string :=
  match xs with
  | [] => [indent +:+ nl]
  | x :: xs' => (indent +:+ x +:+ nl) :: ((fun y => y +:+ nl) <$> xs')
  end.

(** The reply file of a request. *)
Definition reply_name (rid : string) : string := rid +:+ ".dat.gz".

(** [Sftp.request] observed after [n] polling cycles: the identifiers
    still pending and the responses collected so far. *)
Definition request_cycles (sftp : Transport) (n : nat)
    (requests : list (string * string)) : M (list string * gmap string string) :=
  do pending <- for_each submit requests [];
  cycles sftp n 0 pending ∅.

(** Every submitted identifier is accounted for once: it is either
    pending, once, or has a response, never both. *)
Definition accounted (submitted pending : list string)
    (responses : gmap string string) : Prop :=
  NoDup pending /\
  (forall rid, rid ∈ pending -> responses !! rid = None) /\
  (forall rid, rid ∈ submitted <-> rid ∈ pending \/ is_Some (responses !! rid)).

(** A server that has the reply to [a] from the first pass on and every
    other reply from the second pass on. *)
Definition two_pass_server : Transport :=
  mkTransport
    (fun pass path => bool_decide (path = "a.dat.gz") || (1 <? Z.of_nat pass))
    (fun pass path => Some ("reply in " +:+ path)).

Definition three_requests : list (string * string) :=
  [("a", "request a"); ("b", "request b"); ("c", "request c")].

(** ** Sample replies *)

Definition reply_block (lines : list string) : string :=
  join "" ((fun l => l +:+ nl) <$> lines).

Definition reply_px_last : string :=
  reply_block ["START SECURITY|IBM|PX_LAST|"; "IBM|01/01/2020|123.45|";
               "END SECURITY|IBM|PX_LAST|0"].

Definition reply_late_date : string :=
  reply_block ["START SECURITY|IBM|PX_LAST|"; "IBM|05/01/2020|1.5|";
               "END SECURITY|IBM|PX_LAST|0"].

Definition reply_return_code : string :=
  reply_block ["START SECURITY|IBM|PX_LAST|"; "IBM|01/01/2020|123.45|";
               "END SECURITY|IBM|PX_LAST|12"].

Definition reply_other_entity : string :=
  reply_block ["START SECURITY|IBM|PX_LAST|"; "MSFT|01/01/2020|123.45|"].

Definition reply_not_a_number : string :=
  reply_block ["START SECURITY|IBM|PX_LAST|"; "IBM|01/01/2020|N.A.|"].

Definition reply_zero : string :=
  reply_block ["START SECURITY|IBM|PX_LAST|"; "IBM|01/01/2020|0.0|"].

Definition reply_iso_date : string :=
  reply_block ["START SECURITY|IBM|PX_LAST|"; "IBM|2020-01-01|123.45|"].

(** 1 January 2020 and the day after. *)
Definition jan1 : Z := CPython.ordinal 2020 1 1.
Definition jan2 : Z := CPython.ordinal 2020 1 2.

(** The local variables inside the [IBM] block of the samples, before
    any value is stored. *)
Definition in_ibm_block : @locals cpython :=
  mkLocals true "IBM" "PX_LAST"
    {[ "IBM" := new_frame (date_range jan1 jan2) ["PX_LAST"] ]}.

(** ** Further vocabulary *)

(** A table has grown into another: rows and columns were only appended,
    none removed or moved. *)
Definition grown {V} (df df' : DataFrame V) : Prop :=
  index df `prefix_of` index df' /\
  columns df `prefix_of` columns df'.

(** Every filled cell of a table sits at one of its row labels and one
    of its column labels and holds a truthy value. *)
Definition cells_sound `{B : Builtins} (df : DataFrame pyfloat) : Prop :=
  forall d c v, cell df d c = Some v ->
    d ∈ index df /\ c ∈ columns df /\ py_bool v = true.

(** The records the parser hands to the logger. *)
Definition parser_log (ev : event) : Prop :=
  exists msg, ev = Logged DEBUG msg \/ ev = Logged WARNING msg.

(** A computation only appends events of one kind to the history. *)
Definition appends (P : event -> Prop) {A} (m : M A) : Prop :=
  forall h, exists evs, (m h).1 = h ++ evs /\ Forall P evs.

(** What the submission loop does to the world, in order. *)
Definition submission (requests : list (string * string)) : list event :=
  requests ≫= (fun item =>
    [Written (item.1 +:+ ".req") item.2;
     Logged INFO ("Submitted request id: " +:+ item.1 +:+
                  " to Bloomberg sftp server")]).

(** The paths of the files written in a history. *)
Definition written_paths (h : list event) : list string :=
  omap (fun ev => match ev with Written path _ => Some path | _ => None end) h.

(** A string of decimal digits. *)
Fixpoint digits_only (s : string) : bool :=
  match s with
  | EmptyString => true
  | String c s' => bool_decide (is_Some (CPython.digit_val c)) && digits_only s'
  end.

(** More sample replies: lines outside any block; a value for 2 January;
    lines cut short; a return code that is no number. *)
Definition reply_stray_lines : string :=
  reply_block ["TIMESTARTED=Wed Jan  1 12:00:00 GMT 2020";
               "END SECURITY|IBM|PX_LAST|12"; "IBM|01/01/2020|123.45|"].

Definition reply_second_day : string :=
  reply_block ["START SECURITY|IBM|PX_LAST|"; "IBM|02/01/2020|7|"].

Definition reply_short_line : string :=
  reply_block ["START SECURITY|IBM|PX_LAST|"; "IBM|01/01/2020"].

Definition reply_bad_return_code : string :=
  reply_block ["START SECURITY|IBM|PX_LAST|"; "END SECURITY|IBM|PX_LAST|ok"].

(** A server whose replies never come, and one that reports a file it
    cannot hand over. *)
Definition silent_server : Transport :=
  mkTransport (fun _ _ => false) (fun _ _ => None).

Definition broken_server : Transport :=
  mkTransport (fun _ _ => true) (fun _ _ => None).

(** * Properties *)

(** ** The effect monad *)

Lemma bind_return {A C} (m : M A) (k : A -> M C) h h' a :
  m h = (h', Return a) -> bind m k h = k a h'.
Proof. intros E. unfold bind. by rewrite E. Qed.

Lemma bind_raise {A C} (m : M A) (k : A -> M C) h h' e :
  m h = (h', Raise e) -> bind m k h = (h', Raise e).
Proof. intros E. unfold bind. by rewrite E. Qed.

Lemma for_each_app {A S} (body : S -> A -> M S) xs ys s h :
  for_each body (xs ++ ys) s h = bind (for_each body xs s) (for_each body ys) h.
Proof.
  revert s h. induction xs as [|x xs IH]; intros s h; [reflexivity|].
  cbn [for_each app]. unfold bind in *.
  destruct (body s x h) as [h1 [e|s1]]; [done|]. apply IH.
Qed.

(** ** Splitting *)

Lemma split_nonempty sep n s : exists w ws, split sep n s = w :: ws.
Proof.
  revert n. induction s as [|c s IH]; intros n; cbn [split]; [by eauto|].
  destruct n as [|n].
  - destruct (IH 0%nat) as (w & ws & ->); eauto.
  - destruct (Ascii.eqb c sep); [by eauto|].
    destruct (IH (S n)) as (w & ws & ->); eauto.
Qed.

Section ParserFacts.
Context `{B : Builtins}.
Variables (begin_date end_date : Z) (fields : list string).

(** Parsing a reply whose lines are [pre], then [line], then [rest]. *)
Lemma parse_after_prefix response pre line rest st h h1 :
  readlines response = pre ++ line :: rest ->
  parse_lines begin_date end_date fields pre initial h = (h1, Return st) ->
  parse_hist_security_response response begin_date end_date fields h =
  bind (parse_line begin_date end_date fields st line)
       (parse_rest begin_date end_date fields rest) h1.
Proof.
  intros Hl Hpre. unfold parse_hist_security_response, parse_rest, parse_lines in *.
  rewrite Hl. unfold bind at 1. rewrite for_each_app.
  rewrite (bind_return _ _ _ _ _ Hpre). cbn [for_each].
  unfold bind. by destruct (parse_line _ _ _ st line h1) as [h2 [e|st1]].
Qed.

(** What one line does, case by case. *)

Lemma parse_line_mismatch st line b0 h :
  in_sec st = true ->
  split "|" 4 line !! 0%nat = Some b0 ->
  b0 ≠ "END SECURITY" -> b0 ≠ sec st ->
  parse_line begin_date end_date fields st line h = (h, Raise AssertionError).
Proof.
  intros Hin H0 Hend Hsec. unfold parse_line, item, bind.
  rewrite H0. cbn. rewrite Hin. by rewrite !decide_False.
Qed.

Lemma parse_line_end st line tok rc h :
  in_sec st = true ->
  split "|" 4 line !! 0%nat = Some "END SECURITY" ->
  split "|" 4 line !! 3%nat = Some tok ->
  py_int tok = Some rc ->
  parse_line begin_date end_date fields st line h =
  (h ++ (if decide (rc ≠ 0) then [return_code_warning rc (sec st)] else []),
   Return (mkLocals false (sec st) (col st) (dframes st))).
Proof.
  intros Hin H0 H3 Hrc. unfold parse_line, item, bind.
  rewrite H0. cbn. rewrite Hin, decide_True by done.
  rewrite H3. cbn. rewrite Hrc.
  destruct (decide (rc ≠ 0)); cbn; [done|]. by rewrite app_nil_r.
Qed.

Lemma parse_line_unparsed st line tok h :
  in_sec st = true ->
  split "|" 4 line !! 0%nat = Some (sec st) ->
  sec st ≠ "END SECURITY" ->
  split "|" 4 line !! 2%nat = Some tok ->
  py_float tok = None ->
  parse_line begin_date end_date fields st line h =
  (h ++ [Logged DEBUG ("Could not convert val: " +:+ tok +:+ " to float")], Return st).
Proof.
  intros Hin H0 Hend H2 Hf. unfold parse_line, item, bind.
  rewrite H0. cbn. rewrite Hin, decide_False, decide_True by done.
  rewrite H2. cbn. unfold try_float. by rewrite Hf.
Qed.

Lemma parse_line_falsy st line tok v h :
  in_sec st = true ->
  split "|" 4 line !! 0%nat = Some (sec st) ->
  sec st ≠ "END SECURITY" ->
  split "|" 4 line !! 2%nat = Some tok ->
  py_float tok = Some v -> py_bool v = false ->
  parse_line begin_date end_date fields st line h = (h, Return st).
Proof.
  intros Hin H0 Hend H2 Hf Hb. unfold parse_line, item, bind.
  rewrite H0. cbn. rewrite Hin, decide_False, decide_True by done.
  rewrite H2. cbn. unfold try_float. rewrite Hf. cbn. by rewrite Hb.
Qed.

Lemma parse_line_bad_date st line tok v dtok h :
  in_sec st = true ->
  split "|" 4 line !! 0%nat = Some (sec st) ->
  sec st ≠ "END SECURITY" ->
  split "|" 4 line !! 2%nat = Some tok ->
  py_float tok = Some v -> py_bool v = true ->
  split "|" 4 line !! 1%nat = Some dtok ->
  py_strptime dtok = None ->
  parse_line begin_date end_date fields st line h = (h, Raise ValueError).
Proof.
  intros Hin H0 Hend H2 Hf Hb H1 Hd. unfold parse_line, item, bind.
  rewrite H0. cbn. rewrite Hin, decide_False, decide_True by done.
  rewrite H2. cbn. unfold try_float. rewrite Hf. cbn. rewrite Hb, H1. cbn.
  by rewrite Hd.
Qed.

End ParserFacts.

(** ** Tables *)

Lemma date_range_spec begin_date end_date d :
  d ∈ date_range begin_date end_date <-> begin_date <= d <= end_date.
Proof. unfold date_range. rewrite elem_of_seqZ. lia. Qed.

Lemma covers_new_frame {V} begin_date end_date fields :
  covers begin_date end_date fields
    (@new_frame V (date_range begin_date end_date) fields).
Proof.
  exists [], []. cbn. rewrite !app_nil_r.
  split; [done|]. split; [done|]. split; [apply NoDup_seqZ|].
  split; intros ? Hin; by apply elem_of_nil in Hin.
Qed.

Lemma cell_loc_set_is_Some {V} d c (v : V) df d0 c0 :
  is_Some (cell df d0 c0) -> is_Some (cell (loc_set d c v df) d0 c0).
Proof.
  unfold cell, loc_set. cbn. intros H. apply lookup_insert_is_Some'. by right.
Qed.

Lemma cell_loc_set_eq {V} d c (v : V) df : cell (loc_set d c v df) d c = Some v.
Proof. unfold cell, loc_set. cbn. apply lookup_insert_eq. Qed.

Lemma covers_loc_set {V} begin_date end_date fields d c (v : V) df :
  covers begin_date end_date fields df ->
  covers begin_date end_date fields (loc_set d c v df).
Proof.
  intros (rows & cols & Hi & Hc & Hnd & Hrows & Hcols).
  exists (if decide (d ∈ index df) then rows else rows ++ [d]),
         (if decide (c ∈ columns df) then cols else cols ++ [c]).
  unfold loc_set at 1 2 3. cbn [index columns].
  split; [|split; [|split; [|split]]].
  - case_decide; [done|]. by rewrite Hi, app_assoc.
  - case_decide; [done|]. by rewrite Hc, app_assoc.
  - case_decide as Hd; [done|]. apply NoDup_app.
    split; [done|]. split; [|apply NoDup_singleton].
    by intros x Hx ->%list_elem_of_singleton.
  - intros d0 H.
    assert (d0 ∈ rows \/ (d0 = d /\ d ∉ index df)) as [Hold|[-> Hnew]].
    { case_decide; [by left|].
      apply elem_of_app in H as [H| ->%list_elem_of_singleton]; [by left|by right]. }
    + apply Hrows in Hold as [Hout [c0 Hc0]].
      split; [done|]. exists c0. by apply cell_loc_set_is_Some.
    + split.
      * intros Hr. apply Hnew. rewrite Hi, elem_of_app. left. by apply date_range_spec.
      * exists c. rewrite cell_loc_set_eq. by eexists.
  - intros c0 H.
    assert (c0 ∈ cols \/ (c0 = c /\ c ∉ columns df)) as [Hold|[-> Hnew]].
    { case_decide; [by left|].
      apply elem_of_app in H as [H| ->%list_elem_of_singleton]; [by left|by right]. }
    + apply Hcols in Hold as [Hout [d0 Hd0]].
      split; [done|]. exists d0. by apply cell_loc_set_is_Some.
    + split.
      * intros Hr. apply Hnew. rewrite Hc, elem_of_app. by left.
      * exists d. rewrite cell_loc_set_eq. by eexists.
Qed.

Section ParserTables.
Context `{B : Builtins}.
Variables (begin_date end_date : Z) (fields : list string).

Local Abbreviation all_cover := (all_cover begin_date end_date fields).

Lemma all_cover_initial : all_cover initial.
Proof. intros s df H. cbn in H. by rewrite lookup_empty in H. Qed.

Lemma all_cover_parse_line st line h h' st' :
  all_cover st ->
  parse_line begin_date end_date fields st line h = (h', Return st') ->
  all_cover st'.
Proof.
  intros Hst. unfold parse_line, item, bind, try_float, emit, effect, ret, raise.
  intros Hrun.
  repeat (first [case_match | case_decide]; simplify_eq/=); try done.
  - intros s df. cbn [dframes]. rewrite lookup_alter. case_decide as Hs; [|by apply Hst].
    destruct (dframes st !! sec st) as [df0|] eqn:E; [|done].
    intros [= <-]. apply covers_loc_set. by apply (Hst (sec st)).
  - intros s df. cbn [dframes]. rewrite lookup_insert. case_decide; [|by apply Hst].
    intros [= <-]. apply covers_new_frame.
Qed.

Lemma all_cover_parse_lines lines st h h' st' :
  all_cover st ->
  parse_lines begin_date end_date fields lines st h = (h', Return st') ->
  all_cover st'.
Proof.
  unfold parse_lines. revert st h.
  induction lines as [|line lines IH]; intros st h Hst; cbn [for_each].
  - unfold ret. by intros [= _ <-].
  - unfold bind.
    destruct (parse_line _ _ _ st line h) as [h1 [e|st1]] eqn:E; [done|].
    apply IH. by eapply all_cover_parse_line.
Qed.

End ParserTables.

(** ** The parser, line by line *)

Section ParserLines.
Context `{B : Builtins}.
Variables (begin_date end_date : Z) (fields : list string).

(** C2.  A data line inside an entity block whose value token [float]
    rejects, or reads as a falsy number, stores nothing and raises nothing:
    after it the local variables, hence every table and every cell, are
    what they were before it (an absent cell stays absent), and parsing goes
    on with the remaining lines.  A rejected token leaves one DEBUG record,
    a falsy one none. *)
Theorem unparsed_or_zero_value_is_skipped response pre line rest st h h1 tok :
  readlines response = pre ++ line :: rest ->
  parse_lines begin_date end_date fields pre initial h = (h1, Return st) ->
  in_sec st = true ->
  split "|" 4 line !! 0%nat = Some (sec st) ->
  sec st ≠ "END SECURITY" ->
  split "|" 4 line !! 2%nat = Some tok ->
  match py_float tok with Some v => py_bool v = false | None => True end ->
  let h2 :=
    match py_float tok with
    | Some _ => h1
    | None => h1 ++ [Logged DEBUG ("Could not convert val: " +:+ tok +:+ " to float")]
    end in
  parse_lines begin_date end_date fields (pre ++ [line]) initial h = (h2, Return st) /\
  parse_hist_security_response response begin_date end_date fields h =
  parse_rest begin_date end_date fields rest st h2.
Proof.
  intros Hl Hpre Hin H0 Hend H2 Hv h2.
  assert (parse_line begin_date end_date fields st line h1 = (h2, Return st)) as Hline.
  { subst h2. destruct (py_float tok) as [v|] eqn:Hf.
    - by eapply parse_line_falsy.
    - by eapply parse_line_unparsed. }
  split.
  - unfold parse_lines in *. rewrite for_each_app.
    rewrite (bind_return _ _ _ _ _ Hpre). cbn [for_each].
    by rewrite (bind_return _ _ _ _ _ Hline).
  - rewrite (parse_after_prefix _ _ _ _ _ _ _ _ _ _ Hl Hpre).
    by rewrite (bind_return _ _ _ _ _ Hline).
Qed.

(** C4.  A line inside an entity block that is not the block's end and
    whose first token is not the block's entity makes the whole parse raise
    [AssertionError]; no table is returned. *)
Theorem mismatched_entity_is_fatal response pre line rest st h h1 b0 :
  readlines response = pre ++ line :: rest ->
  parse_lines begin_date end_date fields pre initial h = (h1, Return st) ->
  in_sec st = true ->
  split "|" 4 line !! 0%nat = Some b0 ->
  b0 ≠ "END SECURITY" ->
  b0 ≠ sec st ->
  parse_hist_security_response response begin_date end_date fields h =
  (h1, Raise AssertionError).
Proof.
  intros Hl Hpre Hin H0 Hend Hsec.
  rewrite (parse_after_prefix _ _ _ _ _ _ _ _ _ _ Hl Hpre).
  eapply bind_raise. by eapply parse_line_mismatch.
Qed.

(** C5.  An [END SECURITY] line inside an entity block whose fourth token
    [int] reads as [rc] closes the block without raising and without
    touching the tables; it logs exactly one WARNING, naming the return code
    and the entity, when [rc] is not zero and nothing when it is; parsing
    goes on with the remaining lines, and when there are none the tables
    built so far are returned. *)
Theorem return_code_is_logged_not_raised response pre line rest st h h1 tok rc :
  readlines response = pre ++ line :: rest ->
  parse_lines begin_date end_date fields pre initial h = (h1, Return st) ->
  in_sec st = true ->
  split "|" 4 line !! 0%nat = Some "END SECURITY" ->
  split "|" 4 line !! 3%nat = Some tok ->
  py_int tok = Some rc ->
  let h2 := h1 ++ (if decide (rc ≠ 0) then [return_code_warning rc (sec st)] else []) in
  parse_hist_security_response response begin_date end_date fields h =
  parse_rest begin_date end_date fields rest
    (mkLocals false (sec st) (col st) (dframes st)) h2 /\
  (rest = [] ->
   parse_hist_security_response response begin_date end_date fields h =
   (h2, Return (dframes st))).
Proof.
  intros Hl Hpre Hin H0 H3 Hrc h2.
  assert (parse_hist_security_response response begin_date end_date fields h =
          parse_rest begin_date end_date fields rest
            (mkLocals false (sec st) (col st) (dframes st)) h2) as Hgo.
  { rewrite (parse_after_prefix _ _ _ _ _ _ _ _ _ _ Hl Hpre).
    eapply bind_return. by eapply parse_line_end. }
  split; [done|]. intros ->. by rewrite Hgo.
Qed.

(** C10.  A data line inside an entity block whose value token reads as
    a truthy number and whose date token [strptime] rejects makes the whole
    parse raise [ValueError]: unlike a bad value, a bad date is not skipped. *)
Theorem bad_date_is_fatal response pre line rest st h h1 tok v dtok :
  readlines response = pre ++ line :: rest ->
  parse_lines begin_date end_date fields pre initial h = (h1, Return st) ->
  in_sec st = true ->
  split "|" 4 line !! 0%nat = Some (sec st) ->
  sec st ≠ "END SECURITY" ->
  split "|" 4 line !! 2%nat = Some tok ->
  py_float tok = Some v ->
  py_bool v = true ->
  split "|" 4 line !! 1%nat = Some dtok ->
  py_strptime dtok = None ->
  parse_hist_security_response response begin_date end_date fields h =
  (h1, Raise ValueError).
Proof.
  intros Hl Hpre Hin H0 Hend H2 Hf Hb H1 Hd.
  rewrite (parse_after_prefix _ _ _ _ _ _ _ _ _ _ Hl Hpre).
  eapply bind_raise. by eapply parse_line_bad_date.
Qed.

End ParserLines.

(** C3, as the code has it.  The days of [begin_date, end_date] are the
    rows [date_range] lists, each once.  A table is created with exactly
    these rows, one column per requested field and no cell filled.  Every
    table a parse returns still starts with these rows and columns; after
    them come only days outside the range, and column names outside the
    field list, that a data line stored a value under; no row is repeated. *)
Theorem tables_cover_range `{B : Builtins} response begin_date end_date fields
    h h' tables s df :
  parse_hist_security_response response begin_date end_date fields h =
    (h', Return tables) ->
  tables !! s = Some df ->
  (forall d, d ∈ date_range begin_date end_date <-> begin_date <= d <= end_date) /\
  NoDup (date_range begin_date end_date) /\
  (forall st line b1 b2 more h0,
      in_sec st = false ->
      split "|" 4 line = "START SECURITY" :: b1 :: b2 :: more ->
      dframes st !! b1 = None ->
      parse_line begin_date end_date fields st line h0 =
      (h0, Return (mkLocals true b1 b2
                     (<[b1 := mkFrame (date_range begin_date end_date) fields ∅]>
                        (dframes st))))) /\
  covers begin_date end_date fields df.
Proof.
  intros Hrun Hs.
  split; [intros d; apply date_range_spec|].
  split; [apply NoDup_seqZ|].
  split.
  - intros st line b1 b2 more h0 Hin Hbits Hnew.
    unfold parse_line, item, bind. rewrite Hbits. cbn.
    rewrite Hin. cbn. by rewrite Hnew.
  - unfold parse_hist_security_response, bind in Hrun.
    destruct (parse_lines _ _ _ _ initial h) as [h1 [e|st]] eqn:E; [done|].
    unfold ret in Hrun. injection Hrun as _ <-.
    eapply all_cover_parse_lines; [apply all_cover_initial|apply E|apply Hs].
Qed.

Lemma tables_cover_range_witness :
  covers jan1 jan2 ["PX_LAST"]
    (mkFrame [jan1; jan2] ["PX_LAST"]
             {[ (jan1, "PX_LAST") := CPython.Dec false 12345 (-2) ]}).
Proof.
  apply (@tables_cover_range cpython reply_px_last jan1 jan2 ["PX_LAST"] [] []
           {[ "IBM" := mkFrame [jan1; jan2] ["PX_LAST"]
                         {[ (jan1, "PX_LAST") := CPython.Dec false 12345 (-2) ]} ]}
           "IBM").
  - vm_compute. reflexivity.
  - vm_compute. reflexivity.
Defined.

(** C3, as stated, fails: a value dated 5 January in a reply to a request
    for 1 to 2 January gives the table a third row. *)
Lemma out_of_range_date_adds_a_row :
  jan1 <= jan2 /\
  exists tables df,
    (parse_hist_security_response (B:=cpython) reply_late_date jan1 jan2
       ["PX_LAST"] []).2 = Return tables /\
    tables !! "IBM" = Some df /\
    index df = [jan1; jan2; CPython.ordinal 2020 1 5] /\
    index df <> date_range jan1 jan2.
Proof.
  split; [by vm_compute|].
  exists {[ "IBM" := mkFrame [jan1; jan2; CPython.ordinal 2020 1 5] ["PX_LAST"]
                       {[ (CPython.ordinal 2020 1 5, "PX_LAST") :=
                            CPython.Dec false 15 (-1) ]} ]},
         (mkFrame [jan1; jan2; CPython.ordinal 2020 1 5] ["PX_LAST"]
                       {[ (CPython.ordinal 2020 1 5, "PX_LAST") :=
                            CPython.Dec false 15 (-1) ]}).
  split; [vm_compute; reflexivity|].
  split; [vm_compute; reflexivity|].
  split; [reflexivity|].
  vm_compute. discriminate.
Qed.

Lemma unparsed_or_zero_value_is_skipped_witness :
  parse_hist_security_response (B:=cpython) reply_not_a_number jan1 jan2
    ["PX_LAST"] [] =
  ([Logged DEBUG "Could not convert val: N.A. to float"],
   Return (dframes in_ibm_block)).
Proof.
  destruct (@unparsed_or_zero_value_is_skipped cpython jan1 jan2 ["PX_LAST"]
              reply_not_a_number ["START SECURITY|IBM|PX_LAST|" +:+ nl]
              ("IBM|01/01/2020|N.A.|" +:+ nl) [] in_ibm_block [] [] "N.A.")
    as [_ H].
  - reflexivity.
  - reflexivity.
  - reflexivity.
  - reflexivity.
  - cbn. discriminate.
  - reflexivity.
  - exact I.
  - rewrite H. reflexivity.
Defined.

Lemma mismatched_entity_is_fatal_witness :
  parse_hist_security_response (B:=cpython) reply_other_entity jan1 jan2
    ["PX_LAST"] [] = ([], Raise AssertionError).
Proof.
  apply (@mismatched_entity_is_fatal cpython jan1 jan2 ["PX_LAST"]
           reply_other_entity ["START SECURITY|IBM|PX_LAST|" +:+ nl]
           ("MSFT|01/01/2020|123.45|" +:+ nl) [] in_ibm_block [] [] "MSFT").
  - reflexivity.
  - reflexivity.
  - reflexivity.
  - reflexivity.
  - cbn. discriminate.
  - cbn. discriminate.
Defined.

Lemma return_code_is_logged_not_raised_witness :
  parse_hist_security_response (B:=cpython) reply_return_code jan1 jan2
    ["PX_LAST"] [] =
  ([Logged WARNING
      "Received return code: 12 for history request for security: IBM"],
   Return {[ "IBM" := mkFrame [jan1; jan2] ["PX_LAST"]
                        {[ (jan1, "PX_LAST") := CPython.Dec false 12345 (-2) ]} ]}).
Proof.
  destruct (@return_code_is_logged_not_raised cpython jan1 jan2 ["PX_LAST"]
              reply_return_code
              ["START SECURITY|IBM|PX_LAST|" +:+ nl; "IBM|01/01/2020|123.45|" +:+ nl]
              ("END SECURITY|IBM|PX_LAST|12" +:+ nl) []
              (mkLocals true "IBM" "PX_LAST"
                 {[ "IBM" := mkFrame [jan1; jan2] ["PX_LAST"]
                      {[ (jan1, "PX_LAST") := CPython.Dec false 12345 (-2) ]} ]})
              [] [] ("12" +:+ nl) 12)
    as [_ H].
  - reflexivity.
  - reflexivity.
  - reflexivity.
  - reflexivity.
  - reflexivity.
  - reflexivity.
  - rewrite (H eq_refl). reflexivity.
Defined.

Lemma bad_date_is_fatal_witness :
  parse_hist_security_response (B:=cpython) reply_iso_date jan1 jan2
    ["PX_LAST"] [] = ([], Raise ValueError).
Proof.
  apply (@bad_date_is_fatal cpython jan1 jan2 ["PX_LAST"]
           reply_iso_date ["START SECURITY|IBM|PX_LAST|" +:+ nl]
           ("IBM|2020-01-01|123.45|" +:+ nl) [] in_ibm_block [] []
           "123.45" (CPython.Dec false 12345 (-2)) "2020-01-01").
  - reflexivity.
  - reflexivity.
  - reflexivity.
  - reflexivity.
  - cbn. discriminate.
  - reflexivity.
  - reflexivity.
  - reflexivity.
  - reflexivity.
  - reflexivity.
Defined.

(** ** Strings, continued *)

Lemma append_cons c s1 s2 : String c s1 +:+ s2 = String c (s1 +:+ s2).
Proof. reflexivity. Qed.

Lemma append_nil_l s : "" +:+ s = s.
Proof. reflexivity. Qed.

Lemma append_nil_r s : s +:+ "" = s.
Proof. induction s as [|c s IH]; [done|]. by rewrite append_cons, IH. Qed.

Lemma append_assoc s1 s2 s3 : (s1 +:+ s2) +:+ s3 = s1 +:+ s2 +:+ s3.
Proof. induction s1 as [|c s1 IH]; [done|]. by rewrite !append_cons, IH. Qed.

(** ** The request builder *)

Lemma build_request_eq self headers fields data :
  build_request self headers fields data =
  (mkSftp (_tstr self) (S (_request_id self)) (_host self) (_username self)
          (_password self),
   ("bbpy_" +:+ _tstr self +:+ "_" +:+ pretty (S (_request_id self)),
    _opening_stanza +:+
    header_template (_username self)
      ("bbpy_" +:+ _tstr self +:+ "_" +:+ pretty (S (_request_id self))) +:+
    join nl (key_value <$> headers) +:+
    _build_fields fields +:+ _build_data data +:+ _closing_stanza)).
Proof.
  unfold build_request, _build_header. cbn [_tstr _request_id _username join].
  by rewrite !append_nil_l, !append_assoc.
Qed.

(** C6.  The request text is, in this order: the opening marker line; the
    header block, made of the four mandatory entries (the firm name, the
    reply file named after the identifier, [COMPRESS=yes],
    [PROGRAMFLAG=oneshot]) and then the caller's options as [KEY=VALUE]
    joined by line feeds; the fields between their two markers, joined by
    line feeds; the data lines between their two markers, joined by line
    feeds; the closing marker line.  With no field, or no data line, the
    block is its two markers around an empty line.  The identifier returned
    is the one the reply file is named after. *)
Theorem build_request_text self headers fields data :
  let rid := "bbpy_" +:+ _tstr self +:+ "_" +:+ pretty (S (_request_id self)) in
  (build_request self headers fields data).2 =
  (rid,
   "START-OF-FILE" +:+ nl +:+
   nl +:+ "            FIRMNAME=" +:+ _username self +:+
   nl +:+ "            REPLYFILENAME=" +:+ rid +:+ ".dat" +:+
   nl +:+ "            COMPRESS=yes" +:+
   nl +:+ "            PROGRAMFLAG=oneshot" +:+
   nl +:+ "        " +:+ join nl (key_value <$> headers) +:+
   nl +:+ "START-OF-FIELDS" +:+ nl +:+ join nl fields +:+
   nl +:+ "END-OF-FIELDS" +:+ nl +:+
   "START-OF-DATA" +:+ nl +:+ join nl data +:+
   nl +:+ "END-OF-DATA" +:+ nl +:+
   nl +:+ "END-OF-FILE" +:+ nl) /\
  _build_fields [] = nl +:+ "START-OF-FIELDS" +:+ nl +:+ nl +:+ "END-OF-FIELDS" +:+ nl /\
  _build_data [] = "START-OF-DATA" +:+ nl +:+ nl +:+ "END-OF-DATA" +:+ nl /\
  (forall k v kvs, join nl (key_value <$> (k, v) :: kvs) =
     k +:+ "=" +:+ v +:+
     match kvs with [] => "" | _ => nl +:+ join nl (key_value <$> kvs) end).
Proof.
  intros rid. split; [|split; [|split]].
  - rewrite build_request_eq. cbn [snd]. fold rid. f_equal.
    unfold _opening_stanza, header_template, _build_fields, _build_data,
      _start_of_fields, _end_of_fields, _start_of_data, _end_of_data,
      _closing_stanza.
    by rewrite !append_assoc.
  - reflexivity.
  - reflexivity.
  - intros k v [|kv kvs]; cbn [fmap list_fmap join].
    + unfold key_value. cbn [fst snd]. by rewrite !append_nil_r.
    + unfold key_value at 1. cbn [fst snd]. by rewrite !append_assoc.
Qed.

(** *** The request text, line by line *)

Lemma one_line_app s1 s2 :
  one_line (s1 +:+ s2) = one_line s1 && one_line s2.
Proof.
  induction s1 as [|c s1 IH]; [done|].
  rewrite append_cons. cbn [one_line]. by rewrite IH, andb_assoc.
Qed.

Lemma one_line_pretty_N_go x s :
  one_line s = true -> one_line (pretty_N_go x s) = true.
Proof.
  revert s. induction (N.lt_wf_0 x) as [x _ IH]; intros s Hs.
  assert (x = 0 \/ 0 < x)%N as [->|Hx] by lia.
  - by rewrite pretty_N_go_0.
  - rewrite pretty_N_go_step by done. apply IH; [by apply N.div_lt|].
    cbn [one_line]. rewrite Hs, andb_true_r.
    unfold pretty_N_char. by repeat case_match.
Qed.

Lemma one_line_pretty_nat (n : nat) : one_line (pretty n) = true.
Proof.
  unfold pretty, pretty_nat, pretty, pretty_N. case_decide; [done|].
  by apply one_line_pretty_N_go.
Qed.

Lemma readlines_line s rest :
  one_line s = true ->
  readlines (s +:+ nl +:+ rest) = (s +:+ nl) :: readlines rest.
Proof.
  induction s as [|c s IH]; intros Hs; [done|].
  cbn [one_line] in Hs. apply andb_true_iff in Hs as [Hc Hs].
  rewrite !append_cons. cbn [readlines].
  apply negb_true_iff in Hc. rewrite Hc. by rewrite (IH Hs).
Qed.

Lemma readlines_block indent xs rest :
  one_line indent = true ->
  Forall (fun x => one_line x = true) xs ->
  readlines (indent +:+ join nl xs +:+ nl +:+ rest) =
  block_lines indent xs ++ readlines rest.
Proof.
  intros Hi Hxs. destruct xs as [|x xs]; cbn [block_lines].
  - cbn [join]. rewrite append_nil_l. by rewrite readlines_line.
  - apply Forall_cons in Hxs as [Hx Hxs]. revert x Hx indent Hi.
    induction Hxs as [|y ys Hy Hys IH]; intros x Hx indent Hi.
    + cbn [join fmap list_fmap app].
      rewrite <- (append_assoc indent x), <- (append_assoc indent x nl).
      apply readlines_line. by rewrite one_line_app, Hi, Hx.
    + change (join nl (x :: y :: ys)) with (x +:+ nl +:+ join nl (y :: ys)).
      rewrite <- (append_assoc indent x), !append_assoc.
      rewrite <- (append_assoc indent x).
      rewrite readlines_line by (by rewrite one_line_app, Hi, Hx).
      rewrite <- (append_nil_l (join nl (y :: ys) +:+ nl +:+ rest)).
      rewrite (IH y Hy "" eq_refl). cbn [fmap list_fmap app].
      by rewrite !append_assoc, append_nil_l.
Qed.

Lemma readlines_last s :
  one_line s = true -> readlines (s +:+ nl) = [s +:+ nl].
Proof.
  intros Hs. pose proof (readlines_line s "" Hs) as H.
  by rewrite append_nil_r in H.
Qed.

Lemma readlines_nl rest : readlines (nl +:+ rest) = nl :: readlines rest.
Proof. reflexivity. Qed.

Lemma readlines_block_flush xs rest :
  Forall (fun x => one_line x = true) xs ->
  readlines (join nl xs +:+ nl +:+ rest) = block_lines "" xs ++ readlines rest.
Proof. intros Hxs. by rewrite <- (readlines_block "" xs rest). Qed.

(** X10.  Read back line by line, a request whose pieces hold no line feed
    is: the opening marker, an empty line, the four mandatory entries, the
    caller's options one per line, the fields marker, the fields one per
    line, the two markers between the blocks, the data lines one per line,
    the data end marker, an empty line, the closing marker.  An empty list
    reads back as one empty (for the options: blank) line. *)
Lemma build_request_lines self headers fields data :
  one_line (_tstr self) = true ->
  one_line (_username self) = true ->
  Forall (fun x => one_line x = true) (key_value <$> headers) ->
  Forall (fun x => one_line x = true) fields ->
  Forall (fun x => one_line x = true) data ->
  let rid := "bbpy_" +:+ _tstr self +:+ "_" +:+ pretty (S (_request_id self)) in
  readlines (build_request self headers fields data).2.2 =
  ["START-OF-FILE" +:+ nl; nl;
   "            FIRMNAME=" +:+ _username self +:+ nl;
   "            REPLYFILENAME=" +:+ rid +:+ ".dat" +:+ nl;
   "            COMPRESS=yes" +:+ nl;
   "            PROGRAMFLAG=oneshot" +:+ nl] ++
  block_lines "        " (key_value <$> headers) ++
  ["START-OF-FIELDS" +:+ nl] ++
  block_lines "" fields ++
  ["END-OF-FIELDS" +:+ nl; "START-OF-DATA" +:+ nl] ++
  block_lines "" data ++
  ["END-OF-DATA" +:+ nl; nl; "END-OF-FILE" +:+ nl].
Proof.
  intros Ht Hu Hh Hf Hd rid.
  assert (one_line rid = true) as Hrid.
  { subst rid. by rewrite !one_line_app, Ht, one_line_pretty_nat. }
  rewrite build_request_eq. fold rid. cbn [snd].
  unfold _opening_stanza, header_template, _build_fields, _build_data,
    _start_of_fields, _end_of_fields, _start_of_data, _end_of_data,
    _closing_stanza.
  rewrite !append_assoc.
  rewrite (readlines_line "START-OF-FILE") by done.
  rewrite readlines_nl.
  rewrite <- (append_assoc "            FIRMNAME=" (_username self)).
  rewrite readlines_line by (by rewrite one_line_app, Hu).
  rewrite <- (append_assoc rid ".dat"),
          <- (append_assoc "            REPLYFILENAME=" (rid +:+ ".dat")).
  rewrite readlines_line by (by rewrite !one_line_app, Hrid).
  rewrite (readlines_line "            COMPRESS=yes") by done.
  rewrite (readlines_line "            PROGRAMFLAG=oneshot") by done.
  rewrite (readlines_block "        ") by done.
  rewrite (readlines_line "START-OF-FIELDS") by done.
  rewrite readlines_block_flush by done.
  rewrite (readlines_line "END-OF-FIELDS") by done.
  rewrite (readlines_line "START-OF-DATA") by done.
  rewrite readlines_block_flush by done.
  rewrite (readlines_line "END-OF-DATA") by done.
  rewrite readlines_nl.
  rewrite (readlines_last "END-OF-FILE") by done.
  by rewrite !append_assoc.
Qed.

Lemma build_requests_ids self calls :
  (build_requests self calls).2.*1 =
  (fun i => "bbpy_" +:+ _tstr self +:+ "_" +:+ pretty (_request_id self + S i)%nat)
    <$> seq 0 (length calls).
Proof.
  revert self. induction calls as [|[[headers fields] data] calls IH]; intros self.
  - reflexivity.
  - cbn [build_requests]. rewrite build_request_eq.
    specialize (IH (mkSftp (_tstr self) (S (_request_id self)) (_host self)
                           (_username self) (_password self))).
    destruct (build_requests _ calls) as [self2 rs].
    cbn [snd fmap list_fmap fst length seq] in *.
    rewrite IH. cbn [_tstr _request_id].
    rewrite Nat.add_1_r. f_equal.
    rewrite <- fmap_S_seq, <- list_fmap_compose.
    apply list_fmap_ext. intros _ i _. cbn. do 4 f_equal. lia.
Qed.

(** C7.  The identifiers of consecutive [build_request] calls on one
    object are pairwise distinct; the [i]-th is [bbpy_], the object's
    timestamp, an underscore and the counter [_request_id + i + 1] in
    decimal; two consecutive ones are a common prefix followed by two
    different counters. *)
Theorem request_ids_distinct self calls :
  let ids := (build_requests self calls).2.*1 in
  let common := "bbpy_" +:+ _tstr self +:+ "_" in
  length ids = length calls /\
  NoDup ids /\
  (forall (i : nat) rid, ids !! i = Some rid ->
     rid = "bbpy_" +:+ _tstr self +:+ "_" +:+ pretty (_request_id self + S i)%nat) /\
  (forall (i : nat) rid1 rid2, ids !! i = Some rid1 -> ids !! S i = Some rid2 ->
     exists c1 c2 : nat,
       rid1 = common +:+ pretty c1 /\ rid2 = common +:+ pretty c2 /\
       c2 = S c1 /\ pretty c1 <> pretty c2).
Proof.
  intros ids common. subst ids. rewrite build_requests_ids.
  assert (forall (i : nat) rid,
    ((fun i => "bbpy_" +:+ _tstr self +:+ "_" +:+ pretty (_request_id self + S i)%nat)
       <$> seq 0 (length calls)) !! i = Some rid ->
    rid = "bbpy_" +:+ _tstr self +:+ "_" +:+ pretty (_request_id self + S i)%nat) as Hnth.
  { intros i rid. rewrite list_lookup_fmap. intros H.
    apply fmap_Some in H as (j & Hj & ->). apply lookup_seq in Hj as [-> _]. done. }
  split; [by rewrite length_fmap, length_seq|].
  split; [|split; [exact Hnth|]].
  - apply NoDup_fmap_2_strong; [|apply NoDup_seq].
    intros i j _ _ H. do 3 apply (inj _) in H. apply (inj pretty) in H. lia.
  - intros i rid1 rid2 H1 H2. apply Hnth in H1, H2.
    exists (_request_id self + S i)%nat, (_request_id self + S (S i))%nat.
    subst common. rewrite !append_assoc.
    split; [done|]. split; [done|]. split; [lia|].
    intros H. apply (inj pretty) in H. lia.
Qed.

(** ** The polling engine *)

Section Polling.
Variable sftp : Transport.

Lemma submit_eq pending rid text h :
  submit pending (rid, text) h =
  (h ++ [Written (rid +:+ ".req") text;
         Logged INFO ("Submitted request id: " +:+ rid +:+
                      " to Bloomberg sftp server")],
   Return (pending ++ [rid])).
Proof.
  unfold submit, send_request, emit, effect, bind, ret. cbn.
  by rewrite <- app_assoc.
Qed.

Lemma submit_all requests pending h :
  exists h', for_each submit requests pending h =
             (h', Return (pending ++ requests.*1)).
Proof.
  revert pending h. induction requests as [|[rid text] requests IH]; intros pending h.
  - exists h. cbn. by rewrite app_nil_r.
  - cbn [for_each fmap list_fmap fst].
    rewrite (bind_return _ _ _ _ _ (submit_eq pending rid text h)).
    destruct (IH (pending ++ [rid]) (h ++ [Written (rid +:+ ".req") text;
         Logged INFO ("Submitted request id: " +:+ rid +:+
                      " to Bloomberg sftp server")])) as [h' ->].
    exists h'. by rewrite <- app_assoc.
Qed.

(** One call of [get_response]. *)
Lemma get_response_cases pass rid responses h :
  (sftp_exists sftp pass (reply_name rid) = false /\
   get_response sftp pass rid responses h = (h, Return (false, responses))) \/
  (exists text, sftp_exists sftp pass (reply_name rid) = true /\
     sftp_fetch sftp pass (reply_name rid) = Some text /\
     get_response sftp pass rid responses h =
     (h, Return (true, <[rid := text]> responses))) \/
  (sftp_exists sftp pass (reply_name rid) = true /\
   sftp_fetch sftp pass (reply_name rid) = None /\
   get_response sftp pass rid responses h = (h, Raise IOError)).
Proof.
  unfold get_response, reply_name.
  destruct (sftp_exists sftp pass _) eqn:E; [|by left].
  destruct (sftp_fetch sftp pass _) as [text|] eqn:F; right; [left|right]; eauto.
Qed.

(** A pass raises nothing but what the server raises and leaves no trace. *)
Lemma poll_raises pass pending responses h h' e :
  poll sftp pass pending responses h = (h', Raise e) -> e = IOError /\ h' = h.
Proof.
  revert responses. induction pending as [|rid rest IH]; intros responses; [done|].
  cbn [poll]. unfold bind.
  destruct (get_response_cases pass rid responses h)
    as [[_ ->]|[(text & _ & _ & ->)|(_ & _ & ->)]]; cbn [fst snd].
  - destruct (poll sftp pass rest responses h) as [h1 [e1|kept]] eqn:E; [|done].
    intros [= -> ->]. by eapply IH.
  - destruct (poll sftp pass rest _ h) as [h1 [e1|kept]] eqn:E; [|done].
    intros [= -> ->]. by eapply IH.
  - by intros [= -> ->].
Qed.

(** What a pass that returns has done. *)
Lemma poll_returns pass pending responses h h' kept responses' :
  poll sftp pass pending responses h = (h', Return (kept, responses')) ->
  NoDup pending ->
  (forall rid, rid ∈ pending -> responses !! rid = None) ->
  h' = h /\
  kept = filter (fun rid => sftp_exists sftp pass (reply_name rid) = false) pending /\
  (length kept + size responses' = length pending + size responses)%nat /\
  (forall rid, responses' !! rid =
     if decide (rid ∈ pending /\ sftp_exists sftp pass (reply_name rid) = true)
     then sftp_fetch sftp pass (reply_name rid) else responses !! rid) /\
  (forall rid, rid ∈ pending ->
     sftp_exists sftp pass (reply_name rid) = true -> is_Some (responses' !! rid)).
Proof.
  revert responses kept responses'.
  induction pending as [|rid rest IH]; intros responses kept responses' Hrun Hnd Hfresh.
  - cbn in Hrun. injection Hrun as <- <- <-.
    split; [done|]. split; [done|]. split; [done|]. split.
    + intros rid. rewrite decide_False; [done|]. intros [H _]. by apply elem_of_nil in H.
    + intros rid H. by apply elem_of_nil in H.
  - apply NoDup_cons in Hnd as [Hrid Hnd]. cbn [poll] in Hrun. unfold bind in Hrun.
    destruct (get_response_cases pass rid responses h)
      as [[Hex Hget]|[(text & Hex & Hfetch & Hget)|(_ & _ & Hget)]];
      rewrite Hget in Hrun; cbn [fst snd] in Hrun; [| |done].
    + destruct (poll sftp pass rest responses h) as [h1 [e1|[kept1 responses1]]] eqn:E;
        [done|]. cbn in Hrun. injection Hrun as <- <- <-.
      destruct (IH _ _ _ E Hnd) as (-> & -> & Hcount & Hlook & Hgot).
      { intros r Hr. apply Hfresh. by right. }
      split; [done|]. split; [by rewrite filter_cons_True|].
      split; [cbn [length]; lia|]. split.
      * intros r. rewrite Hlook.
        destruct (decide (r ∈ rest /\ _)) as [[Hin Hr]|Hn];
          destruct (decide (r ∈ rid :: rest /\ _)) as [[Hin' Hr']|Hn']; try done.
        -- exfalso. apply Hn'. split; [by right|done].
        -- exfalso. apply elem_of_cons in Hin' as [->|Hin']; [congruence|].
           by apply Hn.
      * intros r Hin Hr. apply elem_of_cons in Hin as [->|Hin]; [congruence|].
        by apply Hgot.
    + destruct (poll sftp pass rest (<[rid:=text]> responses) h)
        as [h1 [e1|[kept1 responses1]]] eqn:E; [done|].
      cbn in Hrun. injection Hrun as <- <- <-.
      destruct (IH _ _ _ E Hnd) as (-> & -> & Hcount & Hlook & Hgot).
      { intros r Hr. rewrite lookup_insert_ne; [apply Hfresh; by right|].
        intros ->. done. }
      rewrite map_size_insert_None in Hcount by (apply Hfresh; by left).
      split; [done|]. split; [rewrite filter_cons_False; [done|congruence]|].
      split; [cbn [length]; lia|].
      assert (forall r, responses1 !! r =
        if decide (r ∈ rid :: rest /\ sftp_exists sftp pass (reply_name r) = true)
        then sftp_fetch sftp pass (reply_name r) else responses !! r) as Hlook'.
      { intros r. rewrite Hlook. destruct (decide (r = rid)) as [->|Hne].
        - rewrite decide_False by (by intros [? _]).
          rewrite lookup_insert_eq, decide_True; [done|]. split; [by left|done].
        - rewrite lookup_insert_ne by done.
          destruct (decide (r ∈ rest /\ _)) as [[Hin Hr]|Hn];
            destruct (decide (r ∈ rid :: rest /\ _)) as [[Hin' Hr']|Hn']; try done.
          + exfalso. apply Hn'. split; [by right|done].
          + exfalso. apply elem_of_cons in Hin' as [->|Hin']; [done|].
            by apply Hn. }
      split; [exact Hlook'|].
      intros r Hin Hr. rewrite Hlook', decide_True by done.
      apply elem_of_cons in Hin as [->|Hin]; [by rewrite Hfetch|].
      specialize (Hgot r Hin Hr). rewrite Hlook, decide_True in Hgot; done.
Qed.

Lemma poll_cycle_eq pass pending responses h :
  poll_cycle sftp pass pending responses h =
  poll sftp pass pending responses (h ++ [Slept 30]).
Proof. reflexivity. Qed.

(** A cycle keeps every identifier accounted for and the count right. *)
Lemma poll_cycle_accounted submitted pass pending responses h h' kept responses' :
  accounted submitted pending responses ->
  poll_cycle sftp pass pending responses h = (h', Return (kept, responses')) ->
  accounted submitted kept responses' /\
  (length kept + size responses' = length pending + size responses)%nat.
Proof.
  intros (Hnd & Hfresh & Hmem) Hrun. rewrite poll_cycle_eq in Hrun.
  destruct (poll_returns _ _ _ _ _ _ _ Hrun Hnd Hfresh)
    as (_ & -> & Hcount & Hlook & Hgot).
  split; [|done]. split; [by apply NoDup_filter|]. split.
  - intros rid [Hin Hex]%list_elem_of_filter.
    rewrite Hlook, decide_False; [by apply Hfresh|]. intros [_ Hex']. congruence.
  - intros rid. rewrite Hmem, list_elem_of_filter. split.
    + intros [Hin|Hsome].
      * destruct (sftp_exists sftp pass (reply_name rid)) eqn:Hex; [right|by left].
        by apply Hgot.
      * right. rewrite Hlook, decide_False; [done|]. intros [Hin _].
        apply Hfresh in Hin. rewrite Hin in Hsome. by destruct Hsome.
    + intros [[_ Hin]|Hsome]; [by left|].
      rewrite Hlook in Hsome. case_decide as Hd; [left; by destruct Hd|by right].
Qed.

Lemma cycles_accounted submitted n pass pending responses h h' pending' responses' :
  accounted submitted pending responses ->
  (length pending + size responses = length submitted)%nat ->
  cycles sftp n pass pending responses h = (h', Return (pending', responses')) ->
  accounted submitted pending' responses' /\
  (length pending' + size responses' = length submitted)%nat.
Proof.
  revert pass pending responses h.
  induction n as [|n IH]; intros pass pending responses h Hacc Hcount; cbn [cycles].
  - unfold ret. by intros [= _ <- <-].
  - unfold bind.
    destruct (poll_cycle sftp (S pass) pending responses h)
      as [h1 [e|[kept responses1]]] eqn:E; [done|]. cbn [fst snd].
    destruct (poll_cycle_accounted _ _ _ _ _ _ _ _ Hacc E) as [Hacc1 Hcount1].
    apply IH; [done|lia].
Qed.

(** The assertion of the loop never fails. *)
Lemma poll_loop_assertion submitted fuel pass pending responses h :
  accounted submitted pending responses ->
  (length pending + size responses = length submitted)%nat ->
  (poll_loop sftp fuel pass (length submitted) pending responses h).2
  <> Raise AssertionError.
Proof.
  revert pass pending responses h.
  induction fuel as [|fuel IH]; intros pass pending responses h Hacc Hcount;
    destruct pending as [|rid0 rest]; cbn [poll_loop]; try done.
  unfold bind.
  destruct (poll_cycle sftp (S pass) (rid0 :: rest) responses h)
    as [h1 [e|[kept responses1]]] eqn:E.
  - rewrite poll_cycle_eq in E. apply poll_raises in E as [-> _]. done.
  - cbn [fst snd].
    destruct (poll_cycle_accounted _ _ _ _ _ _ _ _ Hacc E) as [Hacc1 Hcount1].
    rewrite decide_True by lia. apply IH; [done|lia].
Qed.

Lemma accounted_initial (requests : list (string * string)) :
  NoDup requests.*1 -> accounted requests.*1 requests.*1 ∅.
Proof.
  intros Hnd. split; [done|]. split; [intros; apply lookup_empty|].
  intros rid. split; [by left|]. intros [H|H]; [done|].
  rewrite lookup_empty in H. by destruct H.
Qed.

Section Replies.
Hypothesis fetch_ok :
  forall n path, sftp_exists sftp n path = true -> is_Some (sftp_fetch sftp n path).

Lemma poll_total pass pending responses h :
  exists kept responses',
    poll sftp pass pending responses h = (h, Return (kept, responses')).
Proof.
  revert responses. induction pending as [|rid rest IH]; intros responses.
  - by exists [], responses.
  - cbn [poll]. unfold bind.
    destruct (get_response_cases pass rid responses h)
      as [[_ ->]|[(text & _ & _ & ->)|(Hex & Hnone & _)]]; cbn [fst snd].
    + destruct (IH responses) as (kept & responses' & ->). by eexists _, _.
    + destruct (IH (<[rid:=text]> responses)) as (kept & responses' & ->).
      by eexists _, _.
    + apply fetch_ok in Hex. rewrite Hnone in Hex. by destruct Hex.
Qed.

(** With enough turns left for every pending reply to show up, the loop
    returns; each response it adds was fetched in the first pass that
    found the reply. *)
Lemma poll_loop_returns submitted fuel pass pending responses h :
  accounted submitted pending responses ->
  (length pending + size responses = length submitted)%nat ->
  (forall rid, rid ∈ pending ->
     exists n, (pass < n <= pass + fuel)%nat /\
               sftp_exists sftp n (reply_name rid) = true) ->
  exists h' responses',
    poll_loop sftp fuel pass (length submitted) pending responses h =
      (h', Return (Some responses')) /\
    accounted submitted [] responses' /\
    size responses' = length submitted /\
    (forall rid text, responses' !! rid = Some text ->
       responses !! rid = Some text \/
       (rid ∈ pending /\
        exists n, (pass < n)%nat /\
          sftp_exists sftp n (reply_name rid) = true /\
          sftp_fetch sftp n (reply_name rid) = Some text /\
          forall m, (pass < m < n)%nat ->
                    sftp_exists sftp m (reply_name rid) = false)).
Proof.
  revert pass pending responses h.
  induction fuel as [|fuel IH]; intros pass pending responses h Hacc Hcount Hlate;
    destruct pending as [|rid0 rest]; cbn [poll_loop].
  1, 3: exists h, responses; split; [done|]; split; [done|];
        split; [cbn in Hcount; lia|]; by left.
  - destruct (Hlate rid0) as (n & Hn & _); [by left|lia].
  - destruct (poll_total (S pass) (rid0 :: rest) responses (h ++ [Slept 30]))
      as (kept & responses1 & Hpoll).
    rewrite <- poll_cycle_eq in Hpoll.
    rewrite (bind_return _ _ _ _ _ Hpoll). cbn [fst snd].
    destruct (poll_cycle_accounted _ _ _ _ _ _ _ _ Hacc Hpoll) as [Hacc1 Hcount1].
    rewrite decide_True by lia.
    destruct Hacc as (Hnd & Hfresh & Hmem).
    rewrite poll_cycle_eq in Hpoll.
    destruct (poll_returns _ _ _ _ _ _ _ Hpoll Hnd Hfresh)
      as (_ & -> & _ & Hlook & _).
    destruct (IH (S pass) _ responses1 (h ++ [Slept 30]) Hacc1)
      as (h' & responses2 & Hloop & Hacc2 & Hsize & Hfrom); [lia| |].
    { intros rid [Hex Hin]%list_elem_of_filter.
      destruct (Hlate rid Hin) as (n & Hn & Hex').
      exists n. split; [|done].
      destruct (decide (n = S pass)) as [->|]; [congruence|lia]. }
    exists h', responses2. split; [done|]. split; [done|]. split; [done|].
    intros rid text Hr2. destruct (Hfrom rid text Hr2) as [Hr1|(Hin & n & Hn & Hex & Hf & Hfirst)].
    + rewrite Hlook in Hr1. case_decide as Hd; [|by left].
      destruct Hd as [Hin Hex]. right. split; [done|].
      exists (S pass). split; [lia|]. split; [done|]. split; [done|]. intros m Hm. lia.
    + apply list_elem_of_filter in Hin as [Hex0 Hin]. right. split; [done|].
      exists n. split; [lia|]. split; [done|]. split; [done|].
      intros m Hm. destruct (decide (m = S pass)) as [->|]; [done|]. apply Hfirst. lia.
Qed.

End Replies.

End Polling.

Lemma request_eq sftp fuel requests h :
  exists h0,
    request sftp fuel requests h =
    poll_loop sftp fuel 0 (length requests.*1) requests.*1 ∅ h0.
Proof.
  destruct (submit_all requests [] h) as [h0 Hsub]. exists h0.
  unfold request. rewrite (bind_return _ _ _ _ _ Hsub).
  by rewrite length_fmap.
Qed.

(** C1.  For a request dictionary (distinct keys), whatever the server
    answers: after any number of polling cycles that the server let
    complete, the pending identifiers and the collected responses add up to
    the submitted requests, and every submitted identifier is exactly one of
    pending (once) or answered; so the assertion that closes each turn of
    the loop never fails. *)
Theorem completed_plus_pending_is_submitted sftp (requests : list (string * string)) :
  NoDup requests.*1 ->
  (forall n h h' pending responses,
     request_cycles sftp n requests h = (h', Return (pending, responses)) ->
     (length pending + size responses = length requests)%nat /\
     accounted requests.*1 pending responses) /\
  (forall fuel h, (request sftp fuel requests h).2 <> Raise AssertionError).
Proof.
  intros Hnd. split.
  - intros n h h' pending responses Hrun. unfold request_cycles in Hrun.
    destruct (submit_all requests [] h) as [h0 Hsub].
    rewrite (bind_return _ _ _ _ _ Hsub) in Hrun. cbn [app] in Hrun.
    destruct (cycles_accounted sftp requests.*1 n 0 requests.*1 ∅ h0 h'
                pending responses) as [Hacc Hcount].
    + by apply accounted_initial.
    + by rewrite map_size_empty, Nat.add_0_r.
    + done.
    + rewrite length_fmap in Hcount. done.
  - intros fuel h. destruct (request_eq sftp fuel requests h) as [h0 ->].
    apply poll_loop_assertion; [by apply accounted_initial|].
    by rewrite map_size_empty, Nat.add_0_r.
Qed.

Lemma completed_plus_pending_is_submitted_witness :
  (forall n h h' pending responses,
     request_cycles two_pass_server n three_requests h =
       (h', Return (pending, responses)) ->
     (length pending + size responses = 3)%nat /\
     accounted ["a"; "b"; "c"] pending responses) /\
  (forall fuel h,
     (request two_pass_server fuel three_requests h).2 <> Raise AssertionError).
Proof.
  apply (completed_plus_pending_is_submitted two_pass_server three_requests).
  compute_done.
Defined.

Lemma latest_reply (sftp : Transport) (rids : list string) :
  (forall rid, rid ∈ rids ->
     exists n, (0 < n)%nat /\ sftp_exists sftp n (reply_name rid) = true) ->
  exists N, forall rid, rid ∈ rids ->
    exists n, (0 < n <= N)%nat /\ sftp_exists sftp n (reply_name rid) = true.
Proof.
  induction rids as [|rid rids IH]; intros Hall.
  - exists 0%nat. intros rid H. by apply elem_of_nil in H.
  - destruct IH as [N HN]; [intros r Hr; apply Hall; by right|].
    destruct (Hall rid) as (n & Hn & Hex); [by left|].
    exists (N `max` n)%nat. intros r [->|Hr]%elem_of_cons.
    + exists n. split; [lia|done].
    + destruct (HN r Hr) as (m & Hm & Hex'). exists m. split; [lia|done].
Qed.

(** C8.  For a request dictionary (distinct keys) and a server that at
    some pass reports the reply file of each identifier and hands over every
    file it reports: there is a number of turns after which the loop has
    ended, and [request] then returns a mapping with exactly one response
    per submitted identifier and no other key, each response being the text
    fetched in the first pass that found the reply. *)
Theorem request_returns_every_reply sftp (requests : list (string * string)) :
  NoDup requests.*1 ->
  (forall rid, rid ∈ requests.*1 ->
     exists n, (0 < n)%nat /\ sftp_exists sftp n (reply_name rid) = true) ->
  (forall n path, sftp_exists sftp n path = true ->
                  is_Some (sftp_fetch sftp n path)) ->
  exists N, forall fuel, (N <= fuel)%nat -> forall h,
  exists h' responses,
    request sftp fuel requests h = (h', Return (Some responses)) /\
    size responses = length requests /\
    (forall rid, rid ∈ requests.*1 <-> is_Some (responses !! rid)) /\
    (forall rid text, responses !! rid = Some text ->
       exists n, (0 < n)%nat /\
         sftp_exists sftp n (reply_name rid) = true /\
         sftp_fetch sftp n (reply_name rid) = Some text /\
         forall m, (0 < m < n)%nat ->
                   sftp_exists sftp m (reply_name rid) = false).
Proof.
  intros Hnd Hall Hfetch. destruct (latest_reply sftp _ Hall) as [N HN].
  exists N. intros fuel Hfuel h.
  destruct (request_eq sftp fuel requests h) as [h0 ->].
  destruct (poll_loop_returns sftp Hfetch requests.*1 fuel 0 requests.*1 ∅ h0)
    as (h' & responses & Hrun & (_ & _ & Hmem) & Hsize & Hfrom).
  - by apply accounted_initial.
  - by rewrite map_size_empty, Nat.add_0_r.
  - intros rid Hin. destruct (HN rid Hin) as (n & Hn & Hex).
    exists n. split; [lia|done].
  - exists h', responses. split; [done|]. split; [by rewrite Hsize, length_fmap|].
    split.
    + intros rid. rewrite Hmem. split; [|by right].
      intros [Hin|Hsome]; [by apply elem_of_nil in Hin|done].
    + intros rid text Hr. destruct (Hfrom rid text Hr) as [Hempty|[_ Hn]]; [|done].
      by rewrite lookup_empty in Hempty.
Qed.

Lemma request_returns_every_reply_witness :
  exists N, forall fuel, (N <= fuel)%nat -> forall h,
  exists h' responses,
    request two_pass_server fuel three_requests h = (h', Return (Some responses)) /\
    size responses = 3%nat /\
    (forall rid, rid ∈ ["a"; "b"; "c"] <-> is_Some (responses !! rid)) /\
    (forall rid text, responses !! rid = Some text ->
       exists n, (0 < n)%nat /\
         sftp_exists two_pass_server n (reply_name rid) = true /\
         sftp_fetch two_pass_server n (reply_name rid) = Some text /\
         forall m, (0 < m < n)%nat ->
                   sftp_exists two_pass_server m (reply_name rid) = false).
Proof.
  apply (request_returns_every_reply two_pass_server three_requests).
  - compute_done.
  - intros rid _. exists 2%nat. split; [lia|].
    unfold two_pass_server. cbn. apply orb_true_r.
  - intros n path _. by eexists.
Defined.

(** The scenario of the specification: [a] is answered in the first pass,
    [b] and [c] in the second; two turns suffice. *)
Example request_three_identifiers :
  request two_pass_server 2 three_requests [] =
  ([Written "a.req" "request a";
    Logged INFO "Submitted request id: a to Bloomberg sftp server";
    Written "b.req" "request b";
    Logged INFO "Submitted request id: b to Bloomberg sftp server";
    Written "c.req" "request c";
    Logged INFO "Submitted request id: c to Bloomberg sftp server";
    Slept 30; Slept 30],
   Return (Some {[ "a" := "reply in a.dat.gz"; "b" := "reply in b.dat.gz";
                   "c" := "reply in c.dat.gz" ]})).
Proof. vm_compute. reflexivity. Qed.

(** The scenarios of the specification for the parser. *)
Example parse_px_last :
  parse_hist_security_response (B:=cpython) reply_px_last jan1 jan2 ["PX_LAST"] [] =
  ([], Return {[ "IBM" := mkFrame [jan1; jan2] ["PX_LAST"]
                   {[ (jan1, "PX_LAST") := CPython.Dec false 12345 (-2) ]} ]}).
Proof. vm_compute. reflexivity. Qed.

Example parse_zero_value :
  parse_hist_security_response (B:=cpython) reply_zero jan1 jan2 ["PX_LAST"] [] =
  ([], Return {[ "IBM" := mkFrame [jan1; jan2] ["PX_LAST"] ∅ ]}).
Proof. vm_compute. reflexivity. Qed.

Example build_twice :
  (build_requests (init "20200101120000" "host" "firm" "secret")
     [([], ["PX_LAST"], ["IBM Equity"]); ([], ["PX_LAST"], ["IBM Equity"])]).2.*1 =
  ["bbpy_20200101120000_1"; "bbpy_20200101120000_2"].
Proof. vm_compute. reflexivity. Qed.

(** * Further properties *)

(** ** The parser *)

Section ParserMore.
Context `{B : Builtins}.
Variables (begin_date end_date : Z) (fields : list string).

Lemma parse_line_outside st line h :
  in_sec st = false ->
  split "|" 4 line !! 0%nat <> Some "START SECURITY" ->
  parse_line begin_date end_date fields st line h = (h, Return st).
Proof.
  intros Hin H0. unfold parse_line, item, bind.
  destruct (split_nonempty "|" 4 line) as (b0 & bs & Hb). rewrite Hb in *.
  cbn. rewrite Hin. rewrite decide_False; [done|]. intros ->. by apply H0.
Qed.

(** X1.  A reply in which no line starts with the token [START SECURITY]
    (the empty reply among them) parses to the empty mapping: nothing is
    raised, nothing is logged, whatever the lines hold. *)
Theorem reply_without_block_is_empty response h :
  Forall (fun line => split "|" 4 line !! 0%nat <> Some "START SECURITY")
         (readlines response) ->
  parse_hist_security_response response begin_date end_date fields h =
  (h, Return ∅).
Proof.
  intros Hall. unfold parse_hist_security_response, parse_lines.
  assert (for_each (parse_line begin_date end_date fields) (readlines response)
            initial h = (h, Return initial)) as Hrun.
  { induction Hall as [|line lines Hline _ IH]; [done|].
    cbn [for_each]. by rewrite (bind_return _ _ _ _ _
      (parse_line_outside initial line h eq_refl Hline)). }
  by rewrite (bind_return _ _ _ _ _ Hrun).
Qed.

(** Inside a block the entity of the block has a table: the local
    [dframe] is bound whenever it is used. *)
Lemma block_has_table_line st line h h' st' :
  (in_sec st = true -> is_Some (dframes st !! sec st)) ->
  parse_line begin_date end_date fields st line h = (h', Return st') ->
  in_sec st' = true -> is_Some (dframes st' !! sec st').
Proof.
  intros Hst. unfold parse_line, item, bind, try_float, emit, effect, ret, raise.
  intros Hrun.
  repeat (first [case_match | case_decide]; simplify_eq/=); try done; auto.
  - intros _. rewrite lookup_alter, decide_True by done.
    destruct (Hst eq_refl) as [df ->]. by eexists.
  - intros _. rewrite lookup_insert_eq. by eexists.
  - intros Hin. congruence.
Qed.

Lemma block_has_table lines st h h' st' :
  (in_sec st = true -> is_Some (dframes st !! sec st)) ->
  parse_lines begin_date end_date fields lines st h = (h', Return st') ->
  in_sec st' = true -> is_Some (dframes st' !! sec st').
Proof.
  unfold parse_lines. revert st h.
  induction lines as [|line lines IH]; intros st h Hst; cbn [for_each].
  - unfold ret. by intros [= _ <-].
  - unfold bind.
    destruct (parse_line _ _ _ st line h) as [h1 [e|st1]] eqn:E; [done|].
    apply IH. by eapply block_has_table_line.
Qed.

Lemma parse_line_store st line tok v dtok d df h :
  in_sec st = true ->
  split "|" 4 line !! 0%nat = Some (sec st) ->
  sec st <> "END SECURITY" ->
  split "|" 4 line !! 2%nat = Some tok ->
  py_float tok = Some v -> py_bool v = true ->
  split "|" 4 line !! 1%nat = Some dtok ->
  py_strptime dtok = Some d ->
  dframes st !! sec st = Some df ->
  parse_line begin_date end_date fields st line h =
  (h, Return (mkLocals true (sec st) (col st)
                (<[sec st := loc_set d (col st) v df]> (dframes st)))).
Proof.
  intros Hin H0 Hend H2 Hf Hb H1 Hd Hdf. unfold parse_line, item, bind.
  rewrite H0. cbn. rewrite Hin, decide_False, decide_True by done.
  rewrite H2. cbn. unfold try_float. rewrite Hf. cbn. rewrite Hb, H1. cbn.
  rewrite Hd. unfold ret. do 3 f_equal.
  apply map_eq. intros s. rewrite lookup_alter, lookup_insert.
  case_decide; [subst; by rewrite Hdf|done].
Qed.

(** X2.  A data line of the current entity whose value reads as a truthy
    number [v] and whose date reads as [d] stores [v]: the entity has a
    table, and after the line that table is the old one with [v] assigned
    at row [d] of the block's column, every other table being as before.
    The cell then holds [v], whatever it held; [d] is a row and the column a
    column of the table; no other cell has changed. *)
Theorem data_line_stores_value response pre line rest st h h1 tok v dtok d :
  readlines response = pre ++ line :: rest ->
  parse_lines begin_date end_date fields pre initial h = (h1, Return st) ->
  in_sec st = true ->
  split "|" 4 line !! 0%nat = Some (sec st) ->
  sec st <> "END SECURITY" ->
  split "|" 4 line !! 2%nat = Some tok ->
  py_float tok = Some v ->
  py_bool v = true ->
  split "|" 4 line !! 1%nat = Some dtok ->
  py_strptime dtok = Some d ->
  exists df df',
    dframes st !! sec st = Some df /\
    df' = loc_set d (col st) v df /\
    parse_hist_security_response response begin_date end_date fields h =
    parse_rest begin_date end_date fields rest
      (mkLocals true (sec st) (col st) (<[sec st := df']> (dframes st))) h1 /\
    cell df' d (col st) = Some v /\
    d ∈ index df' /\ col st ∈ columns df' /\
    (forall d0 c0, (d0, c0) <> (d, col st) -> cell df' d0 c0 = cell df d0 c0).
Proof.
  intros Hl Hpre Hin H0 Hend H2 Hf Hb H1 Hd.
  destruct (block_has_table pre initial h h1 st) as [df Hdf]; [done|done|done|].
  exists df, (loc_set d (col st) v df).
  split; [done|]. split; [done|]. split; [|split; [|split; [|split]]].
  - rewrite (parse_after_prefix _ _ _ _ _ _ _ _ _ _ Hl Hpre).
    eapply bind_return. by eapply parse_line_store.
  - apply cell_loc_set_eq.
  - unfold loc_set. cbn [index]. case_decide; [done|].
    apply elem_of_app. right. by apply list_elem_of_singleton.
  - unfold loc_set. cbn [columns]. case_decide; [done|].
    apply elem_of_app. right. by apply list_elem_of_singleton.
  - intros d0 c0 Hne. unfold cell, loc_set. cbn [cells].
    by rewrite lookup_insert_ne.
Qed.

(** X3.  A line that lacks a token the code reads makes the whole parse
    raise [IndexError], which nothing catches: a [START SECURITY] line with
    fewer than three tokens, an [END SECURITY] line inside a block with
    fewer than four, a data line of the current entity with fewer than
    three. *)
Theorem short_line_raises_index_error response pre line rest st h h1 b0 :
  readlines response = pre ++ line :: rest ->
  parse_lines begin_date end_date fields pre initial h = (h1, Return st) ->
  split "|" 4 line !! 0%nat = Some b0 ->
  (in_sec st = false /\ b0 = "START SECURITY" /\
     (length (split "|" 4 line) < 3)%nat) \/
  (in_sec st = true /\ b0 = "END SECURITY" /\
     (length (split "|" 4 line) < 4)%nat) \/
  (in_sec st = true /\ b0 = sec st /\ b0 <> "END SECURITY" /\
     (length (split "|" 4 line) < 3)%nat) ->
  parse_hist_security_response response begin_date end_date fields h =
  (h1, Raise IndexError).
Proof.
  intros Hl Hpre H0 Hcase.
  rewrite (parse_after_prefix _ _ _ _ _ _ _ _ _ _ Hl Hpre).
  eapply bind_raise. unfold parse_line, item, bind. rewrite H0. cbn.
  destruct Hcase as [(Hin & -> & Hlen)|[(Hin & -> & Hlen)|(Hin & -> & Hend & Hlen)]];
    rewrite Hin.
  - rewrite decide_True by done.
    destruct (split "|" 4 line !! 1%nat) as [b1|] eqn:E1; cbn.
    + rewrite (proj2 (lookup_ge_None _ 2%nat)) by lia. done.
    + done.
  - rewrite decide_True by done.
    by rewrite (proj2 (lookup_ge_None _ 3%nat)) by lia.
  - rewrite decide_False, decide_True by done.
    by rewrite (proj2 (lookup_ge_None _ 2%nat)) by lia.
Qed.

(** X4.  An [END SECURITY] line inside a block whose fourth token [int]
    rejects makes the whole parse raise [ValueError]: the return code is
    read before it is compared, and a malformed one is fatal. *)
Theorem bad_return_code_is_fatal response pre line rest st h h1 tok :
  readlines response = pre ++ line :: rest ->
  parse_lines begin_date end_date fields pre initial h = (h1, Return st) ->
  in_sec st = true ->
  split "|" 4 line !! 0%nat = Some "END SECURITY" ->
  split "|" 4 line !! 3%nat = Some tok ->
  py_int tok = None ->
  parse_hist_security_response response begin_date end_date fields h =
  (h1, Raise ValueError).
Proof.
  intros Hl Hpre Hin H0 H3 Hrc.
  rewrite (parse_after_prefix _ _ _ _ _ _ _ _ _ _ Hl Hpre).
  eapply bind_raise. unfold parse_line, item, bind. rewrite H0. cbn.
  rewrite Hin, decide_True by done. rewrite H3. cbn. by rewrite Hrc.
Qed.

Lemma grown_refl {V} (df : DataFrame V) : grown df df.
Proof. by split. Qed.

Lemma grown_trans {V} (df1 df2 df3 : DataFrame V) :
  grown df1 df2 -> grown df2 df3 -> grown df1 df3.
Proof. intros [Hi Hc] [Hi' Hc']. split; by etrans. Qed.

Lemma grown_loc_set {V} d c (v : V) df : grown df (loc_set d c v df).
Proof.
  split.
  - unfold loc_set. cbn [index]. case_decide; [done|]. by apply prefix_app_r.
  - unfold loc_set. cbn [columns]. case_decide; [done|]. by apply prefix_app_r.
Qed.

Lemma grown_parse_line st line h h' st' s df :
  parse_line begin_date end_date fields st line h = (h', Return st') ->
  dframes st !! s = Some df ->
  exists df', dframes st' !! s = Some df' /\ grown df df'.
Proof.
  unfold parse_line, item, bind, try_float, emit, effect, ret, raise.
  intros Hrun Hs.
  repeat (first [case_match | case_decide]; simplify_eq/=);
    try (exists df; split; [done|apply grown_refl]).
  - rewrite lookup_alter. case_decide as Hd.
    + subst s. rewrite Hs. eexists. split; [done|]. apply grown_loc_set.
    + exists df. split; [done|apply grown_refl].
  - exists df. split; [|apply grown_refl].
    rewrite lookup_insert_ne; [done|]. intros ->. congruence.
Qed.

Lemma grown_parse_lines lines st h h' st' s df :
  parse_lines begin_date end_date fields lines st h = (h', Return st') ->
  dframes st !! s = Some df ->
  exists df', dframes st' !! s = Some df' /\ grown df df'.
Proof.
  unfold parse_lines. revert st h df.
  induction lines as [|line lines IH]; intros st h df; cbn [for_each].
  - unfold ret. intros [= _ <-] Hs. exists df. split; [done|apply grown_refl].
  - unfold bind.
    destruct (parse_line _ _ _ st line h) as [h1 [e|st1]] eqn:E; [done|].
    intros Hrun Hs.
    destruct (grown_parse_line _ _ _ _ _ _ _ E Hs) as (df1 & Hs1 & Hg1).
    destruct (IH _ _ _ Hrun Hs1) as (df' & Hs' & Hg').
    exists df'. split; [done|]. by eapply grown_trans.
Qed.

(** X5.  The parser never drops a table, a row or a column: a table
    present after some lines of the reply is present in the result, and its
    row labels and column labels are a prefix of the final ones.  So the
    blocks of one entity, one per column, go into one table. *)
Theorem tables_only_grow response pre rest st h h1 h2 tables s df :
  readlines response = pre ++ rest ->
  parse_lines begin_date end_date fields pre initial h = (h1, Return st) ->
  parse_hist_security_response response begin_date end_date fields h =
    (h2, Return tables) ->
  dframes st !! s = Some df ->
  exists df', tables !! s = Some df' /\ grown df df'.
Proof.
  intros Hl Hpre Hrun Hs.
  unfold parse_hist_security_response, parse_lines in *.
  rewrite Hl in Hrun. unfold bind in Hrun at 1. rewrite for_each_app in Hrun.
  rewrite (bind_return _ _ _ _ _ Hpre) in Hrun.
  destruct (for_each _ rest st h1) as [h3 [e|st']] eqn:E; [done|].
  unfold ret in Hrun. injection Hrun as _ <-.
  by eapply (grown_parse_lines rest st h1 h3 st').
Qed.

Lemma appends_ret {A} P (a : A) : appends P (ret a).
Proof. intros h. exists []. by rewrite app_nil_r. Qed.

Lemma appends_raise {A} P e : appends P (@raise A e).
Proof. intros h. exists []. by rewrite app_nil_r. Qed.

Lemma appends_effect (P : event -> Prop) ev : P ev -> appends P (effect ev).
Proof. intros Hev h. exists [ev]. split; [done|]. by apply Forall_singleton. Qed.

Lemma appends_bind {A C} P (m : M A) (k : A -> M C) :
  appends P m -> (forall a, appends P (k a)) -> appends P (bind m k).
Proof.
  intros Hm Hk h. unfold bind. destruct (Hm h) as (evs & Hh & Hevs).
  destruct (m h) as [h1 [e|a]]; cbn [fst] in *; subst h1.
  - by exists evs.
  - destruct (Hk a (h ++ evs)) as (evs' & -> & Hevs').
    exists (evs ++ evs'). split; [by rewrite app_assoc|]. by apply Forall_app.
Qed.

Lemma appends_for_each {A S} P (body : S -> A -> M S) xs :
  (forall s x, appends P (body s x)) -> forall s, appends P (for_each body xs s).
Proof.
  intros Hb. induction xs as [|x xs IH]; intros s; cbn [for_each].
  - apply appends_ret.
  - apply appends_bind; [apply Hb|apply IH].
Qed.

Lemma appends_item {A} P (xs : list A) i : appends P (item xs i).
Proof.
  unfold item. destruct (xs !! i); [apply appends_ret|apply appends_raise].
Qed.

Lemma appends_parse_line st line :
  appends parser_log (parse_line begin_date end_date fields st line).
Proof.
  unfold parse_line, try_float, emit.
  repeat first
    [ apply appends_bind; [|intros ?]
    | apply appends_effect; eexists; by eauto
    | apply appends_ret
    | apply appends_raise
    | apply appends_item
    | match goal with
      | |- appends _ (if ?c then _ else _) => destruct c
      | |- appends _ (match ?c with _ => _ end) => destruct c
      end ].
Qed.

(** X6.  All the parser does to the world is log: what it adds to the
    history, also when it raises, are DEBUG and WARNING records; it writes
    no file and never sleeps, and it leaves the earlier history as it is. *)
Theorem parse_only_logs response h :
  exists logs,
    (parse_hist_security_response response begin_date end_date fields h).1 =
    h ++ logs /\
    Forall parser_log logs /\
    written_paths logs = [].
Proof.
  assert (appends parser_log
            (parse_hist_security_response response begin_date end_date fields))
    as Happ.
  { unfold parse_hist_security_response, parse_lines.
    apply appends_bind; [|intros; apply appends_ret].
    apply appends_for_each. intros. apply appends_parse_line. }
  destruct (Happ h) as (logs & Hh & Hlogs). exists logs.
  split; [done|]. split; [done|].
  clear Hh. induction Hlogs as [|ev evs (msg & [->| ->]) _ IH]; [done|done|done].
Qed.

Lemma announced_parse_line st line h h' st' s :
  parse_line begin_date end_date fields st line h = (h', Return st') ->
  is_Some (dframes st' !! s) ->
  is_Some (dframes st !! s) \/
  (split "|" 4 line !! 0%nat = Some "START SECURITY" /\
   split "|" 4 line !! 1%nat = Some s).
Proof.
  unfold parse_line, item, bind, try_float, emit, effect, ret, raise.
  intros Hrun.
  repeat (first [case_match | case_decide]; simplify_eq/=); auto.
  - rewrite lookup_alter. case_decide; [|by left].
    subst s. intros [df Hdf]. left.
    destruct (dframes st !! sec st); [by eexists|done].
  - rewrite lookup_insert. case_decide; [subst; by right|by left].
Qed.

(** X7.  The result has a table only for an entity that a
    [START SECURITY] line of the reply names as its second token. *)
Theorem result_keys_are_announced response h h' tables s :
  parse_hist_security_response response begin_date end_date fields h =
    (h', Return tables) ->
  is_Some (tables !! s) ->
  exists line,
    line ∈ readlines response /\
    split "|" 4 line !! 0%nat = Some "START SECURITY" /\
    split "|" 4 line !! 1%nat = Some s.
Proof.
  intros Hrun Hs. unfold parse_hist_security_response, parse_lines, bind in Hrun.
  destruct (for_each _ (readlines response) initial h) as [h1 [e|st']] eqn:E;
    [done|].
  unfold ret in Hrun. injection Hrun as _ <-.
  assert (forall lines st h0 h1 st1,
    for_each (parse_line begin_date end_date fields) lines st h0 =
      (h1, Return st1) ->
    is_Some (dframes st1 !! s) ->
    is_Some (dframes st !! s) \/
    exists line, line ∈ lines /\
      split "|" 4 line !! 0%nat = Some "START SECURITY" /\
      split "|" 4 line !! 1%nat = Some s) as Hgen.
  { clear. induction lines as [|line lines IH]; intros st h0 h1 st1; cbn [for_each].
    - unfold ret. intros [= _ <-]. by left.
    - unfold bind.
      destruct (parse_line _ _ _ st line h0) as [h2 [e|st2]] eqn:E; [done|].
      intros Hrun Hs. destruct (IH _ _ _ _ Hrun Hs) as [Hs2|(l & Hl & H0 & H1)].
      + destruct (announced_parse_line _ _ _ _ _ _ E Hs2) as [?|[H0 H1]];
          [by left|].
        right. exists line. split; [by left|done].
      + right. exists l. split; [by right|done]. }
  destruct (Hgen _ _ _ _ _ E Hs) as [Hinit|Hline]; [|done].
  cbn in Hinit. rewrite lookup_empty in Hinit. by destruct Hinit.
Qed.

End ParserMore.

Lemma reply_without_block_is_empty_witness :
  parse_hist_security_response (B:=cpython) reply_stray_lines jan1 jan2
    ["PX_LAST"] [] = ([], Return ∅).
Proof.
  apply (@reply_without_block_is_empty cpython jan1 jan2 ["PX_LAST"]
           reply_stray_lines []).
  vm_compute. by repeat constructor.
Defined.

Lemma data_line_stores_value_witness :
  exists df df',
    dframes in_ibm_block !! "IBM" = Some df /\
    df' = loc_set jan2 "PX_LAST" (CPython.Dec false 7 0) df /\
    parse_hist_security_response (B:=cpython) reply_second_day jan1 jan2
      ["PX_LAST"] [] =
    parse_rest jan1 jan2 ["PX_LAST"] []
      (mkLocals true "IBM" "PX_LAST" (<["IBM" := df']> (dframes in_ibm_block))) [] /\
    cell df' jan2 "PX_LAST" = Some (CPython.Dec false 7 0) /\
    jan2 ∈ index df' /\ "PX_LAST" ∈ columns df' /\
    (forall d0 c0, (d0, c0) <> (jan2, "PX_LAST") -> cell df' d0 c0 = cell df d0 c0).
Proof.
  apply (@data_line_stores_value cpython jan1 jan2 ["PX_LAST"] reply_second_day
           ["START SECURITY|IBM|PX_LAST|" +:+ nl] ("IBM|02/01/2020|7|" +:+ nl) []
           in_ibm_block [] [] "7" (CPython.Dec false 7 0) "02/01/2020" jan2).
  - reflexivity.
  - reflexivity.
  - reflexivity.
  - reflexivity.
  - cbn. discriminate.
  - reflexivity.
  - reflexivity.
  - reflexivity.
  - reflexivity.
  - reflexivity.
Defined.

Lemma short_line_raises_index_error_witness :
  parse_hist_security_response (B:=cpython) reply_short_line jan1 jan2
    ["PX_LAST"] [] = ([], Raise IndexError).
Proof.
  apply (@short_line_raises_index_error cpython jan1 jan2 ["PX_LAST"]
           reply_short_line ["START SECURITY|IBM|PX_LAST|" +:+ nl]
           ("IBM|01/01/2020" +:+ nl) [] in_ibm_block [] [] "IBM").
  - reflexivity.
  - reflexivity.
  - reflexivity.
  - right. right. split; [reflexivity|]. split; [reflexivity|].
    split; [discriminate|]. vm_compute. lia.
Defined.

Lemma bad_return_code_is_fatal_witness :
  parse_hist_security_response (B:=cpython) reply_bad_return_code jan1 jan2
    ["PX_LAST"] [] = ([], Raise ValueError).
Proof.
  apply (@bad_return_code_is_fatal cpython jan1 jan2 ["PX_LAST"]
           reply_bad_return_code ["START SECURITY|IBM|PX_LAST|" +:+ nl]
           ("END SECURITY|IBM|PX_LAST|ok" +:+ nl) [] in_ibm_block [] []
           ("ok" +:+ nl)).
  - reflexivity.
  - reflexivity.
  - reflexivity.
  - reflexivity.
  - reflexivity.
  - reflexivity.
Defined.

Lemma tables_only_grow_witness :
  exists df',
    ({[ "IBM" := mkFrame [jan1; jan2] ["PX_LAST"]
          {[ (jan1, "PX_LAST") := CPython.Dec false 12345 (-2) ]} ]}
       : gmap string (DataFrame CPython.float_repr)) !! "IBM" = Some df' /\
    grown (new_frame (date_range jan1 jan2) ["PX_LAST"]) df'.
Proof.
  apply (@tables_only_grow cpython jan1 jan2 ["PX_LAST"] reply_px_last
           ["START SECURITY|IBM|PX_LAST|" +:+ nl]
           ["IBM|01/01/2020|123.45|" +:+ nl; "END SECURITY|IBM|PX_LAST|0" +:+ nl]
           in_ibm_block [] [] []).
  - reflexivity.
  - reflexivity.
  - vm_compute. reflexivity.
  - reflexivity.
Defined.

Lemma result_keys_are_announced_witness :
  exists line,
    line ∈ readlines reply_px_last /\
    split "|" 4 line !! 0%nat = Some "START SECURITY" /\
    split "|" 4 line !! 1%nat = Some "IBM".
Proof.
  apply (@result_keys_are_announced cpython jan1 jan2 ["PX_LAST"] reply_px_last
           [] []
           {[ "IBM" := mkFrame [jan1; jan2] ["PX_LAST"]
                {[ (jan1, "PX_LAST") := CPython.Dec false 12345 (-2) ]} ]}).
  - vm_compute. reflexivity.
  - by eexists.
Defined.

(** ** Lines and tokens *)

Lemma join_flat_cons x xs : join "" (x :: xs) = x +:+ join "" xs.
Proof. destruct xs; cbn [join]; [by rewrite append_nil_r|done]. Qed.

Lemma readlines_nil_inv s : readlines s = [] -> s = "".
Proof.
  destruct s as [|c s]; [done|]. cbn [readlines].
  destruct (Ascii.eqb c _); [done|]. by destruct (readlines s).
Qed.

(** X8.  Iterating over the reply loses nothing and invents nothing: the
    lines, put end to end, are the reply; no line is empty; each is a
    stretch without a line feed, closed by one line feed (only the last line
    of a reply that does not end in a line feed goes without). *)
Theorem readlines_cover_the_reply response :
  join "" (readlines response) = response /\
  Forall (fun line => line <> "" /\
            exists body, one_line body = true /\
                         (line = body +:+ nl \/ line = body))
         (readlines response) /\
  (forall lines line, readlines response = lines ++ [line] ->
     Forall (fun l => exists body, one_line body = true /\ l = body +:+ nl) lines).
Proof.
  split; [|split].
  - induction response as [|c s IH]; [done|]. cbn [readlines].
    destruct (Ascii.eqb c (ascii_of_nat 10)) eqn:Hc.
    + rewrite join_flat_cons, IH. done.
    + destruct (readlines s) as [|l ls] eqn:E.
      * apply readlines_nil_inv in E as ->. done.
      * rewrite join_flat_cons in *. by rewrite append_cons, IH.
  - induction response as [|c s IH]; [by constructor|]. cbn [readlines].
    destruct (Ascii.eqb c (ascii_of_nat 10)) eqn:Hc.
    + constructor; [|done]. split; [done|]. exists "". split; [done|]. left.
      apply Ascii.eqb_eq in Hc as ->. done.
    + destruct (readlines s) as [|l ls] eqn:E.
      * constructor; [|done]. split; [done|]. exists (String c "").
        split; [|by right]. cbn [one_line]. by rewrite Hc.
      * apply Forall_cons in IH as [(_ & body & Hb & Hl) IH].
        constructor; [|done]. split; [done|]. exists (String c body).
        split; [cbn [one_line]; by rewrite Hc, Hb|].
        destruct Hl as [->| ->]; [by left|by right].
  - induction response as [|c s IH]; intros lines line.
    { intros H. by destruct lines. }
    cbn [readlines]. destruct (Ascii.eqb c (ascii_of_nat 10)) eqn:Hc.
    + destruct lines as [|l0 lines]; [by constructor|].
      intros [= <- H]. constructor; [|by eapply IH].
      exists "". split; [done|]. apply Ascii.eqb_eq in Hc as ->. done.
    + destruct (readlines s) as [|l ls] eqn:E.
      * destruct lines as [|l0 lines]; [by constructor|].
        intros [= _ H]. by destruct lines.
      * destruct lines as [|l0 lines]; [by constructor|].
        intros [= <- H]. specialize (IH (l :: lines) line).
        rewrite H in IH. specialize (IH eq_refl).
        apply Forall_cons in IH as [(body & Hb & ->) IH].
        constructor; [|done]. exists (String c body).
        split; [cbn [one_line]; by rewrite Hc, Hb|done].
Qed.

Lemma split_length sep n s :
  (1 <= length (split sep n s) <= S n)%nat.
Proof.
  revert n. induction s as [|c s IH]; intros n; cbn [split]; [cbn; lia|].
  destruct n as [|n].
  - specialize (IH 0%nat). destruct (split sep 0 s); cbn in *; lia.
  - destruct (Ascii.eqb c sep).
    + specialize (IH n). cbn [length]. lia.
    + specialize (IH (S n)). destruct (split sep (S n) s); cbn in *; lia.
Qed.

Lemma join_cons_cons sep x y ys :
  join sep (x :: y :: ys) = x +:+ sep +:+ join sep (y :: ys).
Proof. reflexivity. Qed.

(** X9.  Cutting a line into tokens loses nothing: there are between
    one and [maxsplit + 1] tokens (five at most for the parser), and the
    tokens joined by the separator are the line.  A token the parser reads
    therefore keeps whatever stands between two bars, the line feed
    included. *)
Theorem split_covers_the_line sep maxsplit line :
  join (String sep "") (split sep maxsplit line) = line /\
  (1 <= length (split sep maxsplit line) <= S maxsplit)%nat.
Proof.
  split; [|apply split_length].
  revert maxsplit. induction line as [|c s IH]; intros n; cbn [split]; [done|].
  assert (forall m, join (String sep "")
            (match split sep m s with
             | [] => [String c ""]
             | w :: ws => String c w :: ws
             end) = String c s) as Hkeep.
  { intros m. specialize (IH m).
    destruct (split sep m s) as [|w [|w' ws]]; cbn [join] in *.
    - destruct (split_nonempty sep m s) as (? & ? & ?). congruence.
    - by rewrite IH.
    - by rewrite append_cons, IH. }
  destruct n as [|n]; [apply Hkeep|].
  destruct (Ascii.eqb c sep) eqn:Hc; [|apply Hkeep].
  apply Ascii.eqb_eq in Hc as ->. specialize (IH n).
  destruct (split_nonempty sep n s) as (w & ws & Hs). rewrite Hs in *.
  rewrite join_cons_cons, IH. done.
Qed.

(** ** The request builder, continued *)

Lemma build_request_lines_witness :
  readlines (build_request (init "20200101120000" "host" "firm" "secret")
               [("A", "1"); ("B", "2")] ["PX_LAST"; "PX_OPEN"] []).2.2 =
  ["START-OF-FILE" +:+ nl; nl;
   "            FIRMNAME=firm" +:+ nl;
   "            REPLYFILENAME=bbpy_20200101120000_1.dat" +:+ nl;
   "            COMPRESS=yes" +:+ nl;
   "            PROGRAMFLAG=oneshot" +:+ nl;
   "        A=1" +:+ nl; "B=2" +:+ nl;
   "START-OF-FIELDS" +:+ nl; "PX_LAST" +:+ nl; "PX_OPEN" +:+ nl;
   "END-OF-FIELDS" +:+ nl; "START-OF-DATA" +:+ nl; nl;
   "END-OF-DATA" +:+ nl; nl; "END-OF-FILE" +:+ nl].
Proof.
  apply (build_request_lines (init "20200101120000" "host" "firm" "secret")
           [("A", "1"); ("B", "2")] ["PX_LAST"; "PX_OPEN"] []).
  - reflexivity.
  - reflexivity.
  - by repeat constructor.
  - by repeat constructor.
  - by constructor.
Defined.

(** X11.  [build_request] counts and changes nothing else: after any
    number of calls the counter has advanced by the number of calls, and the
    timestamp, host, user name and password of the object are the ones it
    was created with; one pair is returned per call. *)
Theorem build_requests_count_the_calls self calls :
  (build_requests self calls).1 =
  mkSftp (_tstr self) (_request_id self + length calls) (_host self)
         (_username self) (_password self) /\
  length (build_requests self calls).2 = length calls.
Proof.
  revert self. induction calls as [|[[headers fields] data] calls IH]; intros self.
  - cbn. rewrite Nat.add_0_r. by destruct self.
  - cbn [build_requests]. rewrite build_request_eq.
    specialize (IH (mkSftp (_tstr self) (S (_request_id self)) (_host self)
                           (_username self) (_password self))).
    destruct (build_requests _ calls) as [self2 rs]. cbn [fst snd] in *.
    destruct IH as [-> Hlen]. cbn [_tstr _request_id _host _username _password length].
    split; [f_equal; lia|by rewrite Hlen].
Qed.

Lemma digits_only_pretty_N_go x s :
  digits_only s = true -> digits_only (pretty_N_go x s) = true.
Proof.
  revert s. induction (N.lt_wf_0 x) as [x _ IH]; intros s Hs.
  assert (x = 0 \/ 0 < x)%N as [->|Hx] by lia.
  - by rewrite pretty_N_go_0.
  - rewrite pretty_N_go_step by done. apply IH; [by apply N.div_lt|].
    cbn [digits_only]. rewrite Hs, andb_true_r.
    unfold pretty_N_char. by repeat case_match.
Qed.

Lemma digits_only_pretty_nat (n : nat) : digits_only (pretty n) = true.
Proof.
  unfold pretty, pretty_nat, pretty, pretty_N. case_decide; [done|].
  by apply digits_only_pretty_N_go.
Qed.

Lemma digits_only_no_underscore s1 s2 :
  digits_only (s1 +:+ String "_" s2) = false.
Proof.
  induction s1 as [|c s1 IH]; [done|].
  rewrite append_cons. cbn [digits_only]. by rewrite IH, andb_false_r.
Qed.

(** The last underscore of an identifier separates it unambiguously. *)
Lemma counter_suffix_inj s1 d1 s2 d2 :
  digits_only d1 = true -> digits_only d2 = true ->
  s1 +:+ String "_" d1 = s2 +:+ String "_" d2 -> s1 = s2 /\ d1 = d2.
Proof.
  intros Hd1 Hd2. revert s2. induction s1 as [|c s1 IH]; intros [|c2 s2] H.
  - rewrite !append_nil_l in H. by injection H.
  - rewrite append_nil_l, append_cons in H. injection H as _ H. subst d1.
    by rewrite digits_only_no_underscore in Hd1.
  - rewrite append_nil_l, append_cons in H. injection H as _ H. subst d2.
    by rewrite digits_only_no_underscore in Hd2.
  - rewrite !append_cons in H. injection H as -> H.
    destruct (IH _ H) as [-> ->]. done.
Qed.

(** X12.  An identifier tells the timestamp and the counter it was built
    from, whatever the timestamp string: two calls, on the same or on two
    objects, return the same identifier exactly when the two objects have
    the same timestamp and the same counter.  So two objects created within
    the same second hand out the same identifiers, and no other two ever
    share one. *)
Theorem request_id_determines_session self1 headers1 fields1 data1
    self2 headers2 fields2 data2 :
  (build_request self1 headers1 fields1 data1).2.1 =
  (build_request self2 headers2 fields2 data2).2.1 <->
  _tstr self1 = _tstr self2 /\ _request_id self1 = _request_id self2.
Proof.
  rewrite !build_request_eq. cbn [fst snd]. split.
  - intros H. apply (inj (String.app "bbpy_")) in H.
    change (?t +:+ "_" +:+ ?d) with (t +:+ String "_" d) in H.
    apply counter_suffix_inj in H as [Ht Hn];
      [|apply digits_only_pretty_nat|apply digits_only_pretty_nat].
    split; [done|]. apply (inj pretty) in Hn. lia.
  - by intros [-> ->].
Qed.

(** ** The polling engine, continued *)

Section PollingMore.
Variable sftp : Transport.

Lemma submit_all_history requests pending h :
  for_each submit requests pending h =
  (h ++ submission requests, Return (pending ++ requests.*1)).
Proof.
  revert pending h. induction requests as [|[rid text] requests IH]; intros pending h.
  - cbn. by rewrite !app_nil_r.
  - cbn [for_each fmap list_fmap fst].
    rewrite (bind_return _ _ _ _ _ (submit_eq pending rid text h)).
    rewrite IH. unfold submission. cbn [mbind list_bind fst snd].
    by rewrite <- !app_assoc.
Qed.

Lemma poll_history pass pending responses h :
  (poll sftp pass pending responses h).1 = h.
Proof.
  revert responses. induction pending as [|rid rest IH]; intros responses; [done|].
  cbn [poll]. unfold bind.
  destruct (get_response_cases sftp pass rid responses h)
    as [[_ ->]|[(text & _ & _ & ->)|(_ & _ & ->)]]; cbn [fst snd]; [| |done].
  - specialize (IH responses).
    by destruct (poll sftp pass rest responses h) as [h1 [e|kept]].
  - specialize (IH (<[rid:=text]> responses)).
    by destruct (poll sftp pass rest _ h) as [h1 [e|kept]].
Qed.

Lemma poll_loop_history fuel pass submitted pending responses h :
  exists k, (k <= fuel)%nat /\
    (poll_loop sftp fuel pass submitted pending responses h).1 =
    h ++ replicate k (Slept 30) /\
    (pending = [] -> k = 0%nat).
Proof.
  revert pass pending responses h.
  induction fuel as [|fuel IH]; intros pass pending responses h;
    destruct pending as [|rid0 rest]; cbn [poll_loop].
  1-3: exists 0%nat; split; [lia|]; split; [by rewrite app_nil_r|done].
  unfold bind. rewrite poll_cycle_eq.
  pose proof (poll_history (S pass) (rid0 :: rest) responses (h ++ [Slept 30])) as Hh.
  destruct (poll sftp (S pass) (rid0 :: rest) responses (h ++ [Slept 30]))
    as [h1 [e|[kept responses1]]]; cbn [fst snd] in *; subst h1.
  - exists 1%nat. split; [lia|]. done.
  - case_decide.
    + destruct (IH (S pass) kept responses1 (h ++ [Slept 30])) as (k & Hk & -> & _).
      exists (S k). split; [lia|]. split; [|done]. by rewrite <- app_assoc.
    + exists 1%nat. split; [lia|]. done.
Qed.

Lemma written_paths_app h1 h2 :
  written_paths (h1 ++ h2) = written_paths h1 ++ written_paths h2.
Proof. unfold written_paths. apply omap_app. Qed.

Lemma written_paths_sleeps k : written_paths (replicate k (Slept 30)) = [].
Proof. induction k as [|k IH]; [done|]. cbn. apply IH. Qed.

Lemma written_paths_submission (requests : list (string * string)) :
  written_paths (submission requests) =
  (fun rid => rid +:+ ".req") <$> requests.*1.
Proof.
  unfold submission, written_paths.
  induction requests as [|[rid text] requests IH]; [done|].
  cbn [mbind list_bind fmap list_fmap omap list_omap app fst snd] in *.
  by rewrite IH.
Qed.

Lemma request_history fuel (requests : list (string * string)) h :
  exists cycles, (cycles <= fuel)%nat /\
    (request sftp fuel requests h).1 =
    h ++ submission requests ++ replicate cycles (Slept 30) /\
    (requests = [] -> cycles = 0%nat).
Proof.
  unfold request.
  rewrite (bind_return _ _ _ _ _ (submit_all_history requests [] h)).
  destruct (poll_loop_history fuel 0 (length requests) ([] ++ requests.*1) ∅
              (h ++ submission requests)) as (k & Hk & -> & Hnil).
  exists k. split; [done|]. split; [by rewrite <- app_assoc|].
  intros ->. by apply Hnil.
Qed.

(** X13.  A call of [request] that gets past its submissions and returns
    (a mapping, or nothing yet when the polling is cut off) has done this to
    the world, whatever the server answered: it has written each request
    once to the file named after its identifier, in the order of the
    dictionary, logging each submission, and after that it has only slept,
    30 seconds per polling cycle.  With no request at all it has done
    nothing and returns the empty mapping. *)
Theorem request_writes_then_sleeps fuel (requests : list (string * string))
    h h' result :
  request sftp fuel requests h = (h', Return result) ->
  (exists cycles, (cycles <= fuel)%nat /\
     h' = h ++ submission requests ++ replicate cycles (Slept 30)) /\
  written_paths h' =
    written_paths h ++ ((fun rid => rid +:+ ".req") <$> requests.*1) /\
  (requests = [] -> h' = h /\ result = Some ∅).
Proof.
  intros Hrun.
  destruct (request_history fuel requests h) as (k & Hk & Hh & Hnil).
  rewrite Hrun in Hh. cbn [fst] in Hh. split; [by exists k|]. split.
  - rewrite Hh, !written_paths_app, written_paths_sleeps, app_nil_r.
    by rewrite written_paths_submission.
  - intros ->. rewrite (Hnil eq_refl) in Hh. cbn in Hh. rewrite app_nil_r in Hh.
    split; [done|]. unfold request in Hrun. destruct fuel; by injection Hrun.
Qed.

Lemma poll_keeps pass pending responses h h' kept responses' rid :
  poll sftp pass pending responses h = (h', Return (kept, responses')) ->
  rid ∈ pending ->
  sftp_exists sftp pass (reply_name rid) = false ->
  rid ∈ kept.
Proof.
  revert responses kept responses'.
  induction pending as [|rid0 rest IH]; intros responses kept responses' Hrun Hin Hex.
  { by apply elem_of_nil in Hin. }
  cbn [poll] in Hrun. unfold bind in Hrun.
  destruct (get_response_cases sftp pass rid0 responses h)
    as [[Hex0 Hget]|[(text & Hex0 & _ & Hget)|(_ & _ & Hget)]];
    rewrite Hget in Hrun; cbn [fst snd] in Hrun; [| |done].
  - destruct (poll sftp pass rest responses h) as [h1 [e|[kept1 responses1]]] eqn:E;
      [done|]. cbn in Hrun. injection Hrun as <- <- <-.
    apply elem_of_cons in Hin as [->|Hin]; [by left|].
    right. by eapply IH.
  - destruct (poll sftp pass rest _ h) as [h1 [e|[kept1 responses1]]] eqn:E;
      [done|]. cbn in Hrun. injection Hrun as <- <- <-.
    apply elem_of_cons in Hin as [->|Hin]; [congruence|]. by eapply IH.
Qed.

Lemma poll_loop_waits fuel pass submitted pending responses h rid :
  rid ∈ pending ->
  (forall n, sftp_exists sftp n (reply_name rid) = false) ->
  forall result, (poll_loop sftp fuel pass submitted pending responses h).2
                 <> Return (Some result).
Proof.
  intros Hin Hnever. revert pass pending responses h Hin.
  induction fuel as [|fuel IH]; intros pass pending responses h Hin result;
    destruct pending as [|rid0 rest]; cbn [poll_loop];
    try (by apply elem_of_nil in Hin); [done|].
  unfold bind.
  destruct (poll_cycle sftp (S pass) (rid0 :: rest) responses h)
    as [h1 [e|[kept responses1]]] eqn:E; [done|]. cbn [fst snd].
  case_decide; [|done]. apply IH.
  rewrite poll_cycle_eq in E. by eapply poll_keeps.
Qed.

(** X14.  There is no time-out: if the reply file of one submitted
    identifier is never reported, [request] never returns a mapping,
    however many polling cycles it is given and whatever happens to the
    other identifiers. *)
Theorem request_waits_for_every_reply fuel (requests : list (string * string)) h rid :
  rid ∈ requests.*1 ->
  (forall n, sftp_exists sftp n (reply_name rid) = false) ->
  forall responses, (request sftp fuel requests h).2 <> Return (Some responses).
Proof.
  intros Hin Hnever responses. unfold request.
  rewrite (bind_return _ _ _ _ _ (submit_all_history requests [] h)).
  by apply (poll_loop_waits _ _ _ _ _ _ rid).
Qed.

Lemma poll_fault pass pending responses h rid :
  rid ∈ pending ->
  sftp_exists sftp pass (reply_name rid) = true ->
  sftp_fetch sftp pass (reply_name rid) = None ->
  poll sftp pass pending responses h = (h, Raise IOError).
Proof.
  intros Hin Hex Hnone. revert responses.
  induction pending as [|rid0 rest IH]; intros responses.
  { by apply elem_of_nil in Hin. }
  cbn [poll]. unfold bind.
  destruct (get_response_cases sftp pass rid0 responses h)
    as [[Hex0 ->]|[(text & Hex0 & Hf0 & ->)|(_ & _ & ->)]]; cbn [fst snd]; [| |done].
  - apply elem_of_cons in Hin as [->|Hin]; [congruence|]. by rewrite (IH Hin).
  - apply elem_of_cons in Hin as [->|Hin]; [congruence|]. by rewrite (IH Hin).
Qed.

(** X15.  A failing transfer is not handled: if in the first polling
    pass the server reports the reply file of a submitted identifier and
    reading it fails, [request] raises that error after one sleep, and the
    responses collected in that pass are lost with it. *)
Theorem unreadable_reply_raises fuel (requests : list (string * string)) h rid :
  rid ∈ requests.*1 ->
  sftp_exists sftp 1 (reply_name rid) = true ->
  sftp_fetch sftp 1 (reply_name rid) = None ->
  request sftp (S fuel) requests h =
  (h ++ submission requests ++ [Slept 30], Raise IOError).
Proof.
  intros Hin Hex Hnone. unfold request.
  rewrite (bind_return _ _ _ _ _ (submit_all_history requests [] h)).
  cbn [app]. destruct requests.*1 as [|rid0 rest] eqn:E.
  { by apply elem_of_nil in Hin. }
  cbn [poll_loop]. unfold bind. rewrite poll_cycle_eq.
  rewrite (poll_fault 1 (rid0 :: rest) ∅ _ rid Hin Hex Hnone).
  by rewrite <- app_assoc.
Qed.

Lemma cycles_app n k pass pending responses h :
  cycles sftp (n + k) pass pending responses h =
  bind (cycles sftp n pass pending responses)
       (fun now => cycles sftp k (pass + n) now.1 now.2) h.
Proof.
  revert pass pending responses h.
  induction n as [|n IH]; intros pass pending responses h.
  - cbn. by rewrite Nat.add_0_r.
  - cbn [cycles Nat.add]. unfold bind in *.
    destruct (poll_cycle sftp (S pass) pending responses h)
      as [h1 [e|[kept responses1]]]; [done|]. cbn [fst snd].
    rewrite IH. by replace (S pass + n)%nat with (pass + S n)%nat by lia.
Qed.

Lemma cycles_persist submitted n pass pending responses h h' pending' responses' :
  accounted submitted pending responses ->
  cycles sftp n pass pending responses h = (h', Return (pending', responses')) ->
  responses ⊆ responses' /\ pending' `sublist_of` pending.
Proof.
  revert pass pending responses h.
  induction n as [|n IH]; intros pass pending responses h Hacc; cbn [cycles].
  - unfold ret. by intros [= _ <- <-].
  - unfold bind.
    destruct (poll_cycle sftp (S pass) pending responses h)
      as [h1 [e|[kept responses1]]] eqn:E; [done|]. cbn [fst snd]. intros Hrun.
    destruct (poll_cycle_accounted _ _ _ _ _ _ _ _ _ Hacc E) as [Hacc1 _].
    destruct (IH _ _ _ _ Hacc1 Hrun) as [Hsub Hsl].
    destruct Hacc as (Hnd & Hfresh & _). rewrite poll_cycle_eq in E.
    destruct (poll_returns _ _ _ _ _ _ _ _ E Hnd Hfresh)
      as (_ & -> & _ & Hlook & _).
    split.
    + etrans; [|exact Hsub]. apply map_subseteq_spec. intros r text Hr.
      rewrite Hlook, decide_False; [done|]. intros [Hin _].
      apply Hfresh in Hin. congruence.
    + etrans; [exact Hsl|]. apply sublist_filter.
Qed.

(** X16.  A response, once collected, stays as it is, and the pending
    list only loses identifiers: comparing the state after [n] polling
    cycles with the state after [k] more, every response of the first is a
    response of the second with the same text, and the later pending list is
    the earlier one with some identifiers dropped, the submission order
    kept. *)
Theorem responses_persist (requests : list (string * string)) n k h
    h1 pending1 responses1 h2 pending2 responses2 :
  NoDup requests.*1 ->
  request_cycles sftp n requests h = (h1, Return (pending1, responses1)) ->
  request_cycles sftp (n + k) requests h = (h2, Return (pending2, responses2)) ->
  responses1 ⊆ responses2 /\
  pending2 `sublist_of` pending1 /\
  pending1 `sublist_of` requests.*1.
Proof.
  intros Hnd H1 H2. unfold request_cycles in *.
  rewrite (bind_return _ _ _ _ _ (submit_all_history requests [] h)) in H1.
  rewrite (bind_return _ _ _ _ _ (submit_all_history requests [] h)) in H2.
  cbn [app] in *. rewrite cycles_app in H2.
  rewrite (bind_return _ _ _ _ _ H1) in H2. cbn [fst snd] in H2.
  destruct (cycles_accounted sftp requests.*1 _ _ _ _ _ _ _ _
              (accounted_initial _ Hnd) ltac:(by rewrite map_size_empty, Nat.add_0_r) H1)
    as [Hacc1 _].
  destruct (cycles_persist _ _ _ _ _ _ _ _ _ Hacc1 H2) as [Hsub Hsl].
  destruct (cycles_persist _ _ _ _ _ _ _ _ _ (accounted_initial _ Hnd) H1) as [_ Hsl1].
  done.
Qed.

End PollingMore.

Lemma request_waits_for_every_reply_witness :
  "b" ∈ three_requests.*1 /\
  (forall responses,
     (request silent_server 100 three_requests []).2 <> Return (Some responses)).
Proof.
  assert ("b" ∈ three_requests.*1) as Hin by compute_done.
  split; [done|].
  apply (request_waits_for_every_reply silent_server 100 three_requests [] "b").
  - done.
  - reflexivity.
Defined.

Lemma request_writes_then_sleeps_witness :
  (exists cycles, (cycles <= 2)%nat /\
     submission three_requests ++ [Slept 30; Slept 30] =
     [] ++ submission three_requests ++ replicate cycles (Slept 30)) /\
  written_paths (submission three_requests ++ [Slept 30; Slept 30]) =
    written_paths [] ++ ["a.req"; "b.req"; "c.req"] /\
  (three_requests = [] ->
   submission three_requests ++ [Slept 30; Slept 30] = [] /\
   Some ({[ "a" := "reply in a.dat.gz"; "b" := "reply in b.dat.gz";
            "c" := "reply in c.dat.gz" ]} : gmap string string) = Some ∅).
Proof.
  apply (request_writes_then_sleeps two_pass_server 2 three_requests []).
  vm_compute. reflexivity.
Defined.

Lemma unreadable_reply_raises_witness :
  request broken_server 1 three_requests [] =
  ([] ++ submission three_requests ++ [Slept 30], Raise IOError).
Proof.
  apply (unreadable_reply_raises broken_server 0 three_requests [] "a").
  - compute_done.
  - reflexivity.
  - reflexivity.
Defined.

Lemma responses_persist_witness :
  ({[ "a" := "reply in a.dat.gz" ]} : gmap string string) ⊆
  {[ "a" := "reply in a.dat.gz"; "b" := "reply in b.dat.gz";
     "c" := "reply in c.dat.gz" ]} /\
  [] `sublist_of` ["b"; "c"] /\
  ["b"; "c"] `sublist_of` three_requests.*1.
Proof.
  apply (responses_persist two_pass_server three_requests 1 1 []
           (submission three_requests ++ [Slept 30]) ["b"; "c"]
           {[ "a" := "reply in a.dat.gz" ]}
           (submission three_requests ++ [Slept 30; Slept 30]) []
           {[ "a" := "reply in a.dat.gz"; "b" := "reply in b.dat.gz";
              "c" := "reply in c.dat.gz" ]}).
  - compute_done.
  - vm_compute. reflexivity.
  - vm_compute. reflexivity.
Defined.

(** ** Building, then sending *)

Lemma append_length s1 s2 :
  String.length (s1 +:+ s2) = (String.length s1 + String.length s2)%nat.
Proof. induction s1 as [|c s1 IH]; [done|]. rewrite append_cons. cbn. by rewrite IH. Qed.

Lemma append_inj_l s1 s2 t : s1 +:+ t = s2 +:+ t -> s1 = s2.
Proof.
  revert s2. induction s1 as [|c s1 IH]; intros [|c2 s2] H.
  - done.
  - apply (f_equal String.length) in H. rewrite append_nil_l, !append_length in H.
    cbn in H. lia.
  - apply (f_equal String.length) in H. rewrite append_nil_l, !append_length in H.
    cbn in H. lia.
  - rewrite !append_cons in H. injection H as -> H. by rewrite (IH _ H).
Qed.

Lemma build_requests_ids_NoDup self calls :
  NoDup (build_requests self calls).2.*1.
Proof.
  rewrite build_requests_ids.
  apply NoDup_fmap_2_strong; [|apply NoDup_seq].
  intros i j _ _ H. do 3 apply (inj _) in H. apply (inj pretty) in H. lia.
Qed.

(** X17.  The requests of one builder object can be sent as one batch:
    put into a dictionary under their identifiers, none replaces another
    (there are as many entries as [build_request] calls); a call of
    [request] on them that returns has written them to pairwise different
    files, one per identifier; and the assertion that closes each polling
    cycle never fails on them. *)
Theorem built_requests_are_sent_apart self calls sftp fuel h h' result :
  let requests := (build_requests self calls).2 in
  request sftp fuel requests h = (h', Return result) ->
  NoDup requests.*1 /\
  length requests = length calls /\
  (exists new, h' = h ++ new /\
     written_paths new = (fun rid => rid +:+ ".req") <$> requests.*1 /\
     NoDup (written_paths new)) /\
  (forall fuel0 h0, (request sftp fuel0 requests h0).2 <> Raise AssertionError).
Proof.
  intros requests Hrun. pose proof (build_requests_ids_NoDup self calls) as Hnd.
  fold requests in Hnd. split; [done|]. split; [|split].
  - rewrite <- (length_fmap fst requests). subst requests.
    by rewrite build_requests_ids, length_fmap, length_seq.
  - destruct (request_history sftp fuel requests h) as (k & _ & Hh & _).
    rewrite Hrun in Hh. cbn [fst] in Hh.
    exists (submission requests ++ replicate k (Slept 30)).
    split; [done|].
    rewrite written_paths_app, written_paths_sleeps, app_nil_r,
      written_paths_submission.
    split; [done|]. apply NoDup_fmap_2_strong; [|done].
    intros r1 r2 _ _ H. by apply append_inj_l in H.
  - intros fuel0 h0. destruct (request_eq sftp fuel0 requests h0) as [h1 ->].
    apply poll_loop_assertion; [by apply accounted_initial|].
    by rewrite map_size_empty, Nat.add_0_r.
Qed.

Lemma built_requests_are_sent_apart_witness :
  NoDup ["bbpy_20200101120000_1"; "bbpy_20200101120000_2"] /\
  2%nat = 2%nat /\
  (exists new,
     (request two_pass_server 2
        (build_requests (init "20200101120000" "host" "firm" "secret")
           [([], ["PX_LAST"], ["IBM Equity"]); ([], ["PX_LAST"], ["MSFT Equity"])]).2
        []).1 = [] ++ new /\
     written_paths new =
       ["bbpy_20200101120000_1.req"; "bbpy_20200101120000_2.req"] /\
     NoDup (written_paths new)) /\
  (forall fuel0 h0,
     (request two_pass_server fuel0
        (build_requests (init "20200101120000" "host" "firm" "secret")
           [([], ["PX_LAST"], ["IBM Equity"]); ([], ["PX_LAST"], ["MSFT Equity"])]).2
        h0).2 <> Raise AssertionError).
Proof.
  apply (built_requests_are_sent_apart
           (init "20200101120000" "host" "firm" "secret")
           [([], ["PX_LAST"], ["IBM Equity"]); ([], ["PX_LAST"], ["MSFT Equity"])]
           two_pass_server 2 [] _
           (Some {[ "bbpy_20200101120000_1" := "reply in bbpy_20200101120000_1.dat.gz";
                    "bbpy_20200101120000_2" := "reply in bbpy_20200101120000_2.dat.gz" ]})).
  vm_compute. reflexivity.
Defined.

(** ** The parser, continued *)

Section ParserInvariants.
Context `{B : Builtins}.
Variables (begin_date end_date : Z) (fields : list string).

(** X18.  Outside a block every line that does not start with the token
    [START SECURITY] is skipped, whatever it holds: the parse goes on with
    the next line as if the line were not there, and nothing is logged.
    The lines before the first block, between two blocks and after the last
    one are of this kind. *)
Theorem line_outside_block_is_ignored response pre line rest st h h1 :
  readlines response = pre ++ line :: rest ->
  parse_lines begin_date end_date fields pre initial h = (h1, Return st) ->
  in_sec st = false ->
  split "|" 4 line !! 0%nat <> Some "START SECURITY" ->
  parse_lines begin_date end_date fields (pre ++ [line]) initial h =
    (h1, Return st) /\
  parse_hist_security_response response begin_date end_date fields h =
  parse_rest begin_date end_date fields rest st h1.
Proof.
  intros Hl Hpre Hin H0.
  pose proof (parse_line_outside begin_date end_date fields st line h1 Hin H0)
    as Hline.
  split.
  - unfold parse_lines in *. rewrite for_each_app.
    rewrite (bind_return _ _ _ _ _ Hpre). cbn [for_each].
    by rewrite (bind_return _ _ _ _ _ Hline).
  - rewrite (parse_after_prefix _ _ _ _ _ _ _ _ _ _ Hl Hpre).
    by rewrite (bind_return _ _ _ _ _ Hline).
Qed.

Lemma dense_parse_line st line h h' st' :
  (forall dtok d, split "|" 4 line !! 1%nat = Some dtok ->
     py_strptime dtok = Some d -> begin_date <= d <= end_date) ->
  (split "|" 4 line !! 0%nat = Some "START SECURITY" ->
   forall c, split "|" 4 line !! 2%nat = Some c -> c ∈ fields) ->
  (forall s df, dframes st !! s = Some df ->
     index df = date_range begin_date end_date /\ columns df = fields) ->
  (in_sec st = true -> col st ∈ fields) ->
  parse_line begin_date end_date fields st line h = (h', Return st') ->
  (forall s df, dframes st' !! s = Some df ->
     index df = date_range begin_date end_date /\ columns df = fields) /\
  (in_sec st' = true -> col st' ∈ fields).
Proof.
  intros Hdate Hcol Hst Hin.
  unfold parse_line, item, bind, try_float, emit, effect, ret, raise.
  intros Hrun.
  repeat (first [case_match | case_decide]; simplify_eq/=);
    try (split; [done|auto; done]).
  - split; [|auto]. intros s df. rewrite lookup_alter. case_decide as Hs; [|by apply Hst].
    destruct (dframes st !! sec st) as [df0|] eqn:E; [|done].
    intros [= <-]. destruct (Hst _ _ E) as [Hi Hc].
    unfold loc_set. cbn [index columns]. split.
    + rewrite decide_True; [done|]. rewrite Hi. apply date_range_spec. eauto.
    + rewrite decide_True; [done|]. rewrite Hc. auto.
  - split; [|intros _; eauto].
    intros s df. rewrite lookup_insert. case_decide; [|by apply Hst].
    by intros [= <-].
  - split; [done|]. intros Hin'. congruence.
Qed.

(** X19.  When every second token of a line of the reply that reads as
    a date lies in the requested range, and every [START SECURITY] line
    names a requested field as its column, every table of the result is
    dense: its rows are exactly the days of the range, in order, and its
    columns exactly the requested fields. *)
Theorem reply_within_range_gives_dense_tables response h h' tables s df :
  Forall (fun line => forall dtok d,
            split "|" 4 line !! 1%nat = Some dtok ->
            py_strptime dtok = Some d -> begin_date <= d <= end_date)
         (readlines response) ->
  Forall (fun line => split "|" 4 line !! 0%nat = Some "START SECURITY" ->
            forall c, split "|" 4 line !! 2%nat = Some c -> c ∈ fields)
         (readlines response) ->
  parse_hist_security_response response begin_date end_date fields h =
    (h', Return tables) ->
  tables !! s = Some df ->
  index df = date_range begin_date end_date /\ columns df = fields.
Proof.
  intros Hdates Hcols Hrun Hs.
  unfold parse_hist_security_response, parse_lines, bind in Hrun.
  destruct (for_each _ (readlines response) initial h) as [h1 [e|st]] eqn:E;
    [done|].
  unfold ret in Hrun. injection Hrun as _ <-.
  assert (forall lines st0 h0 h1 st1,
    Forall (fun line => forall dtok d,
              split "|" 4 line !! 1%nat = Some dtok ->
              py_strptime dtok = Some d -> begin_date <= d <= end_date) lines ->
    Forall (fun line => split "|" 4 line !! 0%nat = Some "START SECURITY" ->
              forall c, split "|" 4 line !! 2%nat = Some c -> c ∈ fields) lines ->
    (forall s df, dframes st0 !! s = Some df ->
       index df = date_range begin_date end_date /\ columns df = fields) ->
    (in_sec st0 = true -> col st0 ∈ fields) ->
    for_each (parse_line begin_date end_date fields) lines st0 h0 =
      (h1, Return st1) ->
    forall s df, dframes st1 !! s = Some df ->
      index df = date_range begin_date end_date /\ columns df = fields) as Hgen.
  { clear. induction lines as [|line lines IH];
      intros st0 h0 h1 st1 Hdates Hcols Hst Hin; cbn [for_each].
    - unfold ret. by intros [= _ <-].
    - apply Forall_cons in Hdates as [Hd Hdates].
      apply Forall_cons in Hcols as [Hc Hcols]. unfold bind.
      destruct (parse_line _ _ _ st0 line h0) as [h2 [e|st2]] eqn:E; [done|].
      destruct (dense_parse_line _ _ _ _ _ Hd Hc Hst Hin E) as [Hst2 Hin2].
      by apply IH. }
  assert (forall s0 df0, dframes initial !! s0 = Some df0 ->
            index df0 = date_range begin_date end_date /\ columns df0 = fields)
    as Hinit.
  { intros s0 df0 H0. cbn in H0. by rewrite lookup_empty in H0. }
  by apply (Hgen _ initial _ _ _ Hdates Hcols Hinit ltac:(done) E s df Hs).
Qed.

Lemma cells_sound_loc_set d c v df :
  py_bool v = true -> cells_sound df -> cells_sound (loc_set d c v df).
Proof.
  intros Hv Hdf d0 c0 v0. unfold cell, loc_set. cbn [cells index columns].
  rewrite lookup_insert. case_decide as Heq.
  - injection Heq as <- <-. intros [= <-].
    split; [|split; [|done]].
    + case_decide; [done|]. apply elem_of_app. right. by apply list_elem_of_singleton.
    + case_decide; [done|]. apply elem_of_app. right. by apply list_elem_of_singleton.
  - intros H0. destruct (Hdf d0 c0 v0 H0) as (Hd & Hc & Hb).
    split; [|split; [|done]].
    + case_decide; [done|]. apply elem_of_app. by left.
    + case_decide; [done|]. apply elem_of_app. by left.
Qed.

Lemma cells_sound_parse_line st line h h' st' :
  (forall s df, dframes st !! s = Some df -> cells_sound df) ->
  parse_line begin_date end_date fields st line h = (h', Return st') ->
  forall s df, dframes st' !! s = Some df -> cells_sound df.
Proof.
  intros Hst. unfold parse_line, item, bind, try_float, emit, effect, ret, raise.
  intros Hrun.
  repeat (first [case_match | case_decide]; simplify_eq/=); try done.
  - intros s df. rewrite lookup_alter. case_decide as Hs; [|by apply Hst].
    destruct (dframes st !! sec st) as [df0|] eqn:E; [|done].
    intros [= <-]. apply cells_sound_loc_set; [done|]. by apply (Hst (sec st)).
  - intros s df. rewrite lookup_insert. case_decide; [|by apply Hst].
    intros [= <-] d c v Hc. unfold cell in Hc. cbn in Hc.
    by rewrite lookup_empty in Hc.
Qed.

(** X20.  In every table of the result, a filled cell sits at a row
    label and a column label of that table, and the value it holds is
    truthy: no zero is ever stored, in any cell. *)
Theorem stored_cells_are_sound response h h' tables s df d c v :
  parse_hist_security_response response begin_date end_date fields h =
    (h', Return tables) ->
  tables !! s = Some df ->
  cell df d c = Some v ->
  d ∈ index df /\ c ∈ columns df /\ py_bool v = true.
Proof.
  intros Hrun Hs Hc.
  unfold parse_hist_security_response, parse_lines, bind in Hrun.
  destruct (for_each _ (readlines response) initial h) as [h1 [e|st]] eqn:E;
    [done|].
  unfold ret in Hrun. injection Hrun as _ <-.
  assert (forall lines st0 h0 h1 st1,
    (forall s df, dframes st0 !! s = Some df -> cells_sound df) ->
    for_each (parse_line begin_date end_date fields) lines st0 h0 =
      (h1, Return st1) ->
    forall s df, dframes st1 !! s = Some df -> cells_sound df) as Hgen.
  { clear. induction lines as [|line lines IH]; intros st0 h0 h1 st1 Hst;
      cbn [for_each].
    - unfold ret. by intros [= _ <-].
    - unfold bind.
      destruct (parse_line _ _ _ st0 line h0) as [h2 [e|st2]] eqn:E; [done|].
      apply IH. by eapply cells_sound_parse_line. }
  assert (forall s0 df0, dframes initial !! s0 = Some df0 -> cells_sound df0)
    as Hinit.
  { intros s0 df0 H0. cbn in H0. by rewrite lookup_empty in H0. }
  by apply (Hgen _ initial _ _ _ Hinit E s df Hs).
Qed.

End ParserInvariants.

Lemma line_outside_block_is_ignored_witness :
  parse_lines (B:=cpython) jan1 jan2 ["PX_LAST"]
    ([] ++ ["TIMESTARTED=Wed Jan  1 12:00:00 GMT 2020" +:+ nl]) initial [] =
    ([], Return initial) /\
  parse_hist_security_response (B:=cpython) reply_stray_lines jan1 jan2
    ["PX_LAST"] [] =
  parse_rest jan1 jan2 ["PX_LAST"]
    ["END SECURITY|IBM|PX_LAST|12" +:+ nl; "IBM|01/01/2020|123.45|" +:+ nl]
    initial [].
Proof.
  apply (@line_outside_block_is_ignored cpython jan1 jan2 ["PX_LAST"]
           reply_stray_lines []).
  - reflexivity.
  - reflexivity.
  - reflexivity.
  - vm_compute. discriminate.
Defined.

Lemma reply_within_range_gives_dense_tables_witness :
  index (mkFrame [jan1; jan2] ["PX_LAST"]
           ({[ (jan1, "PX_LAST") := CPython.Dec false 12345 (-2) ]}
              : gmap (Z * string) CPython.float_repr)) = date_range jan1 jan2 /\
  columns (mkFrame [jan1; jan2] ["PX_LAST"]
           ({[ (jan1, "PX_LAST") := CPython.Dec false 12345 (-2) ]}
              : gmap (Z * string) CPython.float_repr)) = ["PX_LAST"].
Proof.
  apply (@reply_within_range_gives_dense_tables cpython jan1 jan2 ["PX_LAST"]
           reply_px_last [] []
           {[ "IBM" := mkFrame [jan1; jan2] ["PX_LAST"]
                {[ (jan1, "PX_LAST") := CPython.Dec false 12345 (-2) ]} ]} "IBM").
  - assert (readlines reply_px_last =
            ["START SECURITY|IBM|PX_LAST|" +:+ nl; "IBM|01/01/2020|123.45|" +:+ nl;
             "END SECURITY|IBM|PX_LAST|0" +:+ nl]) as -> by reflexivity.
    apply Forall_cons_2; [|apply Forall_cons_2; [|apply Forall_cons_2; [|apply Forall_nil_2]]].
    all: intros dtok d Hd Hs; vm_compute in Hd; injection Hd as <-; vm_compute in Hs.
    all: first [discriminate Hs | injection Hs as <-; vm_compute; split; discriminate].
  - assert (readlines reply_px_last =
            ["START SECURITY|IBM|PX_LAST|" +:+ nl; "IBM|01/01/2020|123.45|" +:+ nl;
             "END SECURITY|IBM|PX_LAST|0" +:+ nl]) as -> by reflexivity.
    apply Forall_cons_2; [|apply Forall_cons_2; [|apply Forall_cons_2; [|apply Forall_nil_2]]].
    all: intros H0 c Hc; vm_compute in H0.
    all: first [discriminate H0 | vm_compute in Hc; injection Hc as <-; apply list_elem_of_here].
  - vm_compute. reflexivity.
  - reflexivity.
Defined.

Lemma stored_cells_are_sound_witness :
  jan1 ∈ [jan1; jan2] /\ "PX_LAST" ∈ ["PX_LAST"] /\
  CPython.bool_of_float (CPython.Dec false 12345 (-2)) = true.
Proof.
  apply (@stored_cells_are_sound cpython jan1 jan2 ["PX_LAST"] reply_px_last
           [] []
           {[ "IBM" := mkFrame [jan1; jan2] ["PX_LAST"]
                {[ (jan1, "PX_LAST") := CPython.Dec false 12345 (-2) ]} ]} "IBM"
           (mkFrame [jan1; jan2] ["PX_LAST"]
                {[ (jan1, "PX_LAST") := CPython.Dec false 12345 (-2) ]})
           jan1 "PX_LAST" (CPython.Dec false 12345 (-2))).
  - vm_compute. reflexivity.
  - reflexivity.
  - reflexivity.
Defined.
